(** * packit.config.common_package_config

    A shallow embedding of [packit/config/common_package_config.py]:
    the dist-git instance resolution, the [CommonPackageConfig] accessors
    and the [MultiplePackages] facade, followed by the properties that the
    specification states about them.

    Conventions of the embedding:
    - a Python [str] is a [string]; an [Optional[str]] is an [option string];
    - Python list objects that the code shares and mutates (the two
      file-sync lists) live in a store and are handled by reference;
    - a Python exception is a value of type [exn]; code that may raise
      returns in a sum, code that also touches the store runs in the
      monad [M]. *)

From Stdlib Require Import ZArith Ascii String List Bool Lia.
From Stdlib Require DecimalString DecimalNat.
From stdpp Require Import base option list gmap strings.

Local Open Scope string_scope.
Local Open Scope list_scope.
Local Open Scope stdpp_scope.

(** ** Python prelude: the pieces of the language and of its standard
    library that the module relies on. *)
Module Py.

(** The exceptions that the module raises or lets escape. *)
Inductive exn : Type :=
| KeyError (key : string)              (* a failed dict subscript *)
| TypeError (msg : string)
| AttributeError (msg : string)
| StopIteration
| PackitConfigException (msg : string).

(** Code that may raise. *)
Definition result (A : Type) : Type := exn + A.

Definition ok {A} (a : A) : result A := inr a.
Definition raise {A} (e : exn) : result A := inl e.

Definition rbind {A B} (r : result A) (k : A -> result B) : result B :=
  match r with
  | inl e => inl e
  | inr a => k a
  end.

(** Truth value of an [Optional[str]]: [None] and [""] are falsy. *)
Definition truthy (o : option string) : bool :=
  match o with
  | None => false
  | Some s => negb (String.eqb s "")
  end.

(** [x or ""] on an [Optional[str]]. *)
Definition or_empty (o : option string) : string :=
  if truthy o then default "" o else "".

(** What an f-string renders for an [Optional[str]] replacement field. *)
Definition fmt (o : option string) : string := default "None" o.

(** [os.path.basename] on a [str]: what follows the last slash. *)
Fixpoint has_slash (s : string) : bool :=
  match s with
  | EmptyString => false
  | String c r => Ascii.eqb c "/" || has_slash r
  end.

Fixpoint basename_str (s : string) : string :=
  match s with
  | EmptyString => EmptyString
  | String c r => if has_slash s then basename_str r else s
  end.

(** [os.path.basename] as the module calls it, on an [Optional[str]]:
    [None] is refused with a [TypeError]. *)
Definition basename (p : option string) : result string :=
  match p with
  | None => raise (TypeError "expected str, bytes or os.PathLike object, not NoneType")
  | Some s => ok (basename_str s)
  end.

(** [\d] on the code units of a [string]. *)
Definition is_digit (c : ascii) : bool :=
  (48 <=? nat_of_ascii c)%nat && (nat_of_ascii c <=? 57)%nat.

Definition cons_head (c : ascii) (l : list string) : list string :=
  match l with
  | [] => [String c EmptyString]
  | x :: xs => String c x :: xs
  end.

(** [re.split(r"(\d+)", s)]: the pieces between the maximal runs of
    digits, interleaved with the runs themselves (the captured group).
    [in_run] tells whether the piece being read is a run of digits. *)
Fixpoint split_go (in_run : bool) (s : string) : list string :=
  match s with
  | EmptyString => if in_run then [""; ""] else [""]
  | String c r =>
      if Bool.eqb (is_digit c) in_run
      then cons_head c (split_go in_run r)
      else "" :: cons_head c (split_go (is_digit c) r)
  end.

Definition split_digits (s : string) : list string := split_go false s.







End Py.

Import Py.

(** ** Collaborators that the module imports. *)

(** Modelled from the spec: [DistGitInstance] (packit.dist_git_instance) is
    not among the sources. The spec describes the resolved instance as "a
    single derived value (base URL + namespace)", and the module reads
    exactly these two attributes, [url] and [namespace]. *)
Record DistGitInstance : Type := mkDistGit {
  url : string;
  namespace : option string
}.

(** Modelled from the spec: [SyncFilesItem] and [iter_srcs] (packit.sync)
    are not among the sources. The spec gives a "sync-file descriptor type
    with src (list) and dest (single path) fields and a helper that
    flattens descriptor sources into one sequence". A path is whatever the
    configuration holds, an [Optional[str]]. *)
Record SyncFilesItem : Type := mkSync {
  src : list (option string);
  dest : option string
}.

Definition iter_srcs (files : list SyncFilesItem) : list (option string) :=
  flat_map src files.

(** [x in iter_srcs(files)] *)
Definition in_srcs (x : option string) (files : list SyncFilesItem) : bool :=
  bool_decide (x ∈ iter_srcs files).

(** ** The world around a configuration object. *)

(** What construction emits: [logger.warning] and [warnings.warn]. *)
Inductive notice : Type :=
| Logged (msg : string)
| Deprecation (msg : string).

(** A reference to a Python list object in the store. *)
Abbreviation loc := nat.

Record World : Type := mkWorld {
  heap : list (list SyncFilesItem);   (* the list objects, by reference *)
  log : list notice;                  (* warnings emitted so far *)
  environ : gmap string string        (* os.environ *)
}.

(** Stateful code that may raise: the world is threaded through, and it
    keeps the effects that happened before an exception. *)
Definition M (A : Type) : Type := World -> result A * World.

Definition ret {A} (a : A) : M A := fun w => (ok a, w).

Definition bind {A B} (m : M A) (k : A -> M B) : M B :=
  fun w =>
    match m w with
    | (inl e, w') => (inl e, w')
    | (inr a, w') => k a w'
    end.

Definition lift {A} (r : result A) : M A := fun w => (r, w).

Declare Scope py_scope.
Delimit Scope py_scope with py.
Notation "x <- m ;; k" := (bind m (fun x => k))
  (at level 100, m at next level, right associativity) : py_scope.
Notation "m ;; k" := (bind m (fun _ => k))
  (at level 100, right associativity) : py_scope.
Local Open Scope py_scope.

(** The content of a list object. Every reference that the code holds
    was obtained from a list object; a number beyond the store, which no
    Python program can hold, reads as the empty list. *)
Definition deref (l : loc) : M (list SyncFilesItem) :=
  fun w => (ok (heap w !!! l), w).

(** A list display [[...]]: a new list object. *)
Definition alloc (v : list SyncFilesItem) : M loc :=
  fun w => (ok (length (heap w)),
            {| heap := heap w ++ [v]; log := log w; environ := environ w |}).

(** [files.append(item)]: the list object is changed in place, and every
    holder of the reference sees the new element. *)
Definition append (l : loc) (item : SyncFilesItem) : M unit :=
  fun w => (ok tt,
            {| heap := <[l := (heap w !!! l) ++ [item]]> (heap w);
               log := log w; environ := environ w |}).

Definition emit (n : notice) : M unit :=
  fun w => (ok tt, {| heap := heap w; log := log w ++ [n]; environ := environ w |}).

Definition getenv (name : string) : M (option string) :=
  fun w => (ok (environ w !! name), w).

(** [lst or []] on an [Optional[list]] argument: the list object itself
    when it is given and non-empty, a new empty list otherwise. *)
Definition or_new_list (o : option loc) : M loc :=
  match o with
  | None => alloc []
  | Some l =>
      v <- deref l ;;
      match v with
      | [] => alloc []
      | _ :: _ => ret l
      end
  end.

(** ** Dist-git instance resolution *)
Module DistGit.
Section Resolution.

(** [DistGitInstance.from_url_and_namespace] is not among the sources: the
    resolution is stated for any such constructor. *)
Variable from_url_and_namespace : string -> option string -> DistGitInstance.

(** [DISTGIT_INSTANCES] (packit.constants), the static registry, is not
    among the sources: the resolution is stated for any registry. *)
Variable DISTGIT_INSTANCES : gmap string DistGitInstance.

(** [DISTGIT_INSTANCES[key]] *)
Definition registry_getitem (key : string) : result DistGitInstance :=
  match DISTGIT_INSTANCES !! key with
  | Some inst => ok inst
  | None => raise (KeyError key)
  end.

Definition _construct_dist_git_instance
  (base_url namespace pkg_tool : option string) : M DistGitInstance :=
  match base_url with
  | Some u => ret (from_url_and_namespace u namespace)
  | None =>
      if truthy pkg_tool
      then lift (registry_getitem (default "" pkg_tool))
      else
        base_url <- getenv "DISTGIT_URL" ;;
        namespace <- getenv "DISTGIT_NAMESPACE" ;;
        match base_url with
        | Some u => ret (from_url_and_namespace u namespace)
        | None => lift (registry_getitem "fedpkg")
        end
  end.

End Resolution.
End DistGit.

(** ** CommonPackageConfig *)
Module CommonPackageConfig.

(** The attributes of a configuration object that the derived accessors
    read or write. The remaining options of the constructor are stored as
    given (or replaced by their default) and take no part in them. *)
Record t : Type := mk {
  config_file_path : option string;
  specfile_path : option string;
  _files_to_sync : loc;
  _files_to_sync_used : bool;
  synced_files : loc;
  upstream_package_name : option string;
  downstream_package_name : option string;
  _downstream_project_url : option string;
  dist_git_instance : DistGitInstance;
  spec_source_id : string;
  pkg_tool : option string
}.

(** The keyword arguments of the constructor that reach these attributes.
    A list argument is a reference to the caller's list object. *)
Record Args : Type := mkArgs {
  arg_config_file_path : option string;
  arg_specfile_path : option string;
  arg_synced_files : option loc;
  arg_files_to_sync : option loc;
  arg_dist_git_namespace : option string;
  arg_upstream_package_name : option string;
  arg_downstream_project_url : option string;
  arg_downstream_package_name : option string;
  arg_dist_git_base_url : option string;
  arg_spec_source_id : string;
  arg_pkg_tool : option string
}.

(** The defaults of the signature. *)
Definition no_args : Args :=
  {| arg_config_file_path := None; arg_specfile_path := None;
     arg_synced_files := None; arg_files_to_sync := None;
     arg_dist_git_namespace := None; arg_upstream_package_name := None;
     arg_downstream_project_url := None; arg_downstream_package_name := None;
     arg_dist_git_base_url := None; arg_spec_source_id := "Source0";
     arg_pkg_tool := None |}.

Definition deprecated_msg : string :=
  "synced_files option is deprecated. Use files_to_sync option instead.".

Definition both_msg : string :=
  "You are setting both files_to_sync and synced_files. Packit will use files_to_sync. You should remove synced_files since it is deprecated.".

Definition _warn_user (files_to_sync_used : bool) : M unit :=
  emit (Logged deprecated_msg) ;;
  emit (Deprecation deprecated_msg) ;;
  if files_to_sync_used then emit (Logged both_msg) else ret tt.

Section Construction.

Variable from_url_and_namespace : string -> option string -> DistGitInstance.
Variable DISTGIT_INSTANCES : gmap string DistGitInstance.

Definition __init__ (a : Args) : M t :=
  files <- or_new_list (arg_files_to_sync a) ;;
  let used := bool_decide (arg_files_to_sync a ≠ None) in
  synced <- or_new_list (arg_synced_files a) ;;
  (if bool_decide (arg_synced_files a ≠ None) then _warn_user used else ret tt) ;;
  inst <- DistGit._construct_dist_git_instance
            from_url_and_namespace DISTGIT_INSTANCES
            (arg_dist_git_base_url a) (arg_dist_git_namespace a) (arg_pkg_tool a) ;;
  ret {| config_file_path := arg_config_file_path a;
         specfile_path := arg_specfile_path a;
         _files_to_sync := files;
         _files_to_sync_used := used;
         synced_files := synced;
         upstream_package_name := arg_upstream_package_name a;
         downstream_package_name := arg_downstream_package_name a;
         _downstream_project_url := arg_downstream_project_url a;
         dist_git_instance := inst;
         spec_source_id := arg_spec_source_id a;
         pkg_tool := arg_pkg_tool a |}.

End Construction.

Definition dist_git_base_url (self : t) : string := url (dist_git_instance self).

Definition dist_git_namespace (self : t) : option string :=
  namespace (dist_git_instance self).

Definition files_to_sync (self : t) : M loc :=
  if _files_to_sync_used self then ret (_files_to_sync self)
  else
    v <- deref (synced_files self) ;;
    match v with
    | _ :: _ => ret (synced_files self)
    | [] => alloc []
    end.

Definition dist_git_package_url (self : t) : option string :=
  if truthy (downstream_package_name self)
  then Some (dist_git_base_url self +:+ fmt (dist_git_namespace self) +:+ "/"
             +:+ fmt (downstream_package_name self) +:+ ".git")
  else None.

(** Assignments to attributes of the object, as later pipeline stages and
    the lazy accessor perform them. *)
Definition set_downstream_project_url (v : option string) (self : t) : t :=
  {| config_file_path := config_file_path self;
     specfile_path := specfile_path self;
     _files_to_sync := _files_to_sync self;
     _files_to_sync_used := _files_to_sync_used self;
     synced_files := synced_files self;
     upstream_package_name := upstream_package_name self;
     downstream_package_name := downstream_package_name self;
     _downstream_project_url := v;
     dist_git_instance := dist_git_instance self;
     spec_source_id := spec_source_id self;
     pkg_tool := pkg_tool self |}.

Definition set_downstream_package_name (v : option string) (self : t) : t :=
  {| config_file_path := config_file_path self;
     specfile_path := specfile_path self;
     _files_to_sync := _files_to_sync self;
     _files_to_sync_used := _files_to_sync_used self;
     synced_files := synced_files self;
     upstream_package_name := upstream_package_name self;
     downstream_package_name := v;
     _downstream_project_url := _downstream_project_url self;
     dist_git_instance := dist_git_instance self;
     spec_source_id := spec_source_id self;
     pkg_tool := pkg_tool self |}.

Definition set_dist_git_instance (v : DistGitInstance) (self : t) : t :=
  {| config_file_path := config_file_path self;
     specfile_path := specfile_path self;
     _files_to_sync := _files_to_sync self;
     _files_to_sync_used := _files_to_sync_used self;
     synced_files := synced_files self;
     upstream_package_name := upstream_package_name self;
     downstream_package_name := downstream_package_name self;
     _downstream_project_url := _downstream_project_url self;
     dist_git_instance := v;
     spec_source_id := spec_source_id self;
     pkg_tool := pkg_tool self |}.

(** The accessor returns its value together with the object, whose cache
    attribute it may have assigned. *)
Definition downstream_project_url (self : t) : option string * t :=
  if negb (truthy (_downstream_project_url self))
  then
    let self' := set_downstream_project_url (dist_git_package_url self) self in
    (_downstream_project_url self', self')
  else (_downstream_project_url self, self).



Definition get_specfile_sync_files_item (self : t) (from_downstream : bool)
  : result SyncFilesItem :=
  let upstream_specfile_path := specfile_path self in
  rbind
    (if truthy (downstream_package_name self)
     then ok (fmt (downstream_package_name self) +:+ ".spec")
     else basename upstream_specfile_path)
    (fun downstream_specfile_path =>
       ok {| src := [if from_downstream then Some downstream_specfile_path
                     else upstream_specfile_path];
             dest := if from_downstream then upstream_specfile_path
                     else Some downstream_specfile_path |}).

Definition get_all_files_to_sync (self : t) : M loc :=
  files <- files_to_sync self ;;
  if negb (_files_to_sync_used self) then
    v <- deref files ;;
    (if negb (in_srcs (specfile_path self) v)
     then item <- lift (get_specfile_sync_files_item self false) ;;
          append files item
     else ret tt) ;;
    v <- deref files ;;
    (if truthy (config_file_path self) && negb (in_srcs (config_file_path self) v)
     then append files {| src := [config_file_path self];
                          dest := config_file_path self |}
     else ret tt) ;;
    ret files
  else ret files.

End CommonPackageConfig.

(** ** MultiplePackages *)
Module MultiplePackages.

Notation "'let?' x := r 'in' k" := (rbind r (fun x => k))
  (at level 10, x name, r at level 100, k at level 200, only parsing).

Section Facade.

(** [P] is the class of the packages; [V] stands for the Python values
    that are neither a [str] nor a dict of packages. *)
Context {P V : Type}.

Inductive value : Type :=
| Packages (d : list (string * P))    (* a dict of packages, in insertion order *)
| Str (s : string)
| Other (v : V).

(** The built-ins [getattr] and [setattr] on a package. An assignment
    changes the package object in place: it yields the changed package. *)
Variable getattr : P -> string -> result value.
Variable setattr : P -> string -> value -> result P.

(** An object of the class is its instance dictionary, [self.__dict__]. *)
Local Abbreviation obj := (gmap string value).

Definition in_dict (name : string) (self : obj) : bool :=
  bool_decide (is_Some (self !! name)).

(** [object.__getattribute__] and [object.__setattr__] on an instance
    whose class defines no attribute of that name. *)
Definition __getattribute__ (self : obj) (name : string) : result value :=
  match self !! name with
  | Some v => ok v
  | None => raise (AttributeError
                     ("'MultiplePackages' object has no attribute '" +:+ name +:+ "'"))
  end.

Definition super_setattr (self : obj) (name : string) (v : value) : obj :=
  <[name := v]> self.

(** [len(x)] *)
Definition len (x : value) : result nat :=
  match x with
  | Packages d => ok (length d)
  | Str s => ok (String.length s)
  | Other _ => raise (TypeError "object has no len()")
  end.

Fixpoint dict_get (d : list (string * P)) (k : string) : option P :=
  match d with
  | [] => None
  | (k', p) :: r => if String.eqb k' k then Some p else dict_get r k
  end.

Fixpoint dict_set (d : list (string * P)) (k : string) (p : P) : list (string * P) :=
  match d with
  | [] => []
  | (k', p') :: r => if String.eqb k' k then (k', p) :: r else (k', p') :: dict_set r k p
  end.

(** [x[key]] for the values that the facade may find under its two
    attributes; only a [str] can be a key of the dict of packages. *)
Definition getitem (x key : value) : result P :=
  match x, key with
  | Packages d, Str k =>
      match dict_get d k with
      | Some p => ok p
      | None => raise (KeyError k)
      end
  | Packages _, Packages _ => raise (TypeError "unhashable type: 'dict'")
  | Packages _, Other _ => raise (KeyError "")
  | Str _, _ => raise (TypeError "string indices must be integers")
  | Other _, _ => raise (TypeError "object is not subscriptable")
  end.

(** A package of the dict [x], reached under [key], has been changed in
    place into [p]. *)
Definition mutated (x key : value) (p : P) : value :=
  match x, key with
  | Packages d, Str k => Packages (dict_set d k p)
  | _, _ => x
  end.

(** [next(iter(packages))] *)
Definition first_key (packages : list (string * P)) : result string :=
  match packages with
  | [] => raise StopIteration
  | (k, _) :: _ => ok k
  end.

Definition __init__ (packages : list (string * P)) : result obj :=
  let self := super_setattr ∅ "packages" (Packages packages) in
  let? k := first_key packages in
  ok (super_setattr self "_first_package" (Str k)).

Definition ambiguous (verb name : string) : exn :=
  AttributeError ("It is ambiguous to " +:+ verb +:+ " " +:+ name +:+ ": "
                  +:+ "there is more than one package in the config.").

Definition __getattr__ (self : obj) (name : string) : result value :=
  match self !! name with
  | Some v => ok v
  | None =>
      let? packages := __getattribute__ self "packages" in
      let? n := len packages in
      if (n =? 1)%nat then
        let? first := __getattribute__ self "_first_package" in
        let? package := getitem packages first in
        getattr package name
      else raise (ambiguous "get" name)
  end.

Definition __setattr__ (self : obj) (name : string) (v : value) : result obj :=
  if in_dict name self || negb (in_dict "packages" self)
  then ok (super_setattr self name v)
  else
    let? packages := __getattribute__ self "packages" in
    let? n := len packages in
    if (n =? 1)%nat then
      let? first := __getattribute__ self "_first_package" in
      let? package := getitem packages first in
      let? package' := setattr package name v in
      ok (super_setattr self "packages" (mutated packages first package'))
    else raise (ambiguous "set" name).

End Facade.

Arguments value : clear implicits.

(** [self.packages.items()] *)
Definition items {P V} (x : value P V) : result (list (string * P)) :=
  match x with
  | Packages d => ok d
  | _ => raise (AttributeError "object has no attribute 'items'")
  end.

Definition get_package_names_as_env {V}
  (self : gmap string (value CommonPackageConfig.t V)) : result (gmap string string) :=
  let? packages := __getattribute__ self "packages" in
  let? n := len packages in
  if (n =? 1)%nat then
    let? its := items packages in
    match its with
    | (packit_package_name, package_config) :: _ =>
        let env : gmap string string := ∅ in
        let env := <["PACKIT_CONFIG_PACKAGE_NAME" := packit_package_name]> env in
        let env := <["PACKIT_UPSTREAM_PACKAGE_NAME" :=
                       or_empty (CommonPackageConfig.upstream_package_name package_config)]> env in
        let env := <["PACKIT_DOWNSTREAM_PACKAGE_NAME" :=
                       or_empty (CommonPackageConfig.downstream_package_name package_config)]> env in
        ok env
    | [] => raise (PackitConfigException "No packages in config")
    end
  else raise (PackitConfigException "Multiple packages in config").

End MultiplePackages.

(** * Reference statements and sample inputs *)

(** The precedence as the specification words it: every step tests
    whether its input is given. *)
Definition resolution_as_stated
  (from_url_and_namespace : string -> option string -> DistGitInstance)
  (registry : gmap string DistGitInstance)
  (base_url namespace pkg_tool : option string) : M DistGitInstance :=
  match base_url with
  | Some u => ret (from_url_and_namespace u namespace)
  | None =>
      match pkg_tool with
      | Some tool => lift (DistGit.registry_getitem registry tool)
      | None =>
          env_url <- getenv "DISTGIT_URL" ;;
          env_namespace <- getenv "DISTGIT_NAMESPACE" ;;
          match env_url with
          | Some u => ret (from_url_and_namespace u env_namespace)
          | None => lift (DistGit.registry_getitem registry "fedpkg")
          end
      end
  end.

(** A registry and worlds to evaluate the code on. *)
Definition fedora : DistGitInstance :=
  {| url := "https://src.fedoraproject.org/"; namespace := Some "rpms" |}.

Definition centos : DistGitInstance :=
  {| url := "https://gitlab.com/"; namespace := Some "redhat/centos-stream/rpms" |}.

Definition sample_registry : gmap string DistGitInstance :=
  <["centpkg" := centos]> {["fedpkg" := fedora]}.

Definition empty_world : World :=
  {| heap := []; log := []; environ := ∅ |}.

Definition staging_world : World :=
  {| heap := []; log := [];
     environ := <["DISTGIT_NAMESPACE" := "stg"]> {["DISTGIT_URL" := "https://stg.example/"]} |}.


(** The constructor up to the dist-git resolution: the two list
    attributes are settled and the deprecation is reported. *)
Definition init_lists (a : CommonPackageConfig.Args) : M (loc * loc) :=
  files <- or_new_list (CommonPackageConfig.arg_files_to_sync a) ;;
  synced <- or_new_list (CommonPackageConfig.arg_synced_files a) ;;
  (if bool_decide (CommonPackageConfig.arg_synced_files a ≠ None)
   then CommonPackageConfig._warn_user
          (bool_decide (CommonPackageConfig.arg_files_to_sync a ≠ None))
   else ret tt) ;;
  ret (files, synced).

(** The object that the constructor builds from its arguments, the two
    list attributes and the resolved instance. *)
Definition built (a : CommonPackageConfig.Args) (files synced : loc)
  (inst : DistGitInstance) : CommonPackageConfig.t :=
  {| CommonPackageConfig.config_file_path := CommonPackageConfig.arg_config_file_path a;
     CommonPackageConfig.specfile_path := CommonPackageConfig.arg_specfile_path a;
     CommonPackageConfig._files_to_sync := files;
     CommonPackageConfig._files_to_sync_used :=
       bool_decide (CommonPackageConfig.arg_files_to_sync a ≠ None);
     CommonPackageConfig.synced_files := synced;
     CommonPackageConfig.upstream_package_name := CommonPackageConfig.arg_upstream_package_name a;
     CommonPackageConfig.downstream_package_name := CommonPackageConfig.arg_downstream_package_name a;
     CommonPackageConfig._downstream_project_url := CommonPackageConfig.arg_downstream_project_url a;
     CommonPackageConfig.dist_git_instance := inst;
     CommonPackageConfig.spec_source_id := CommonPackageConfig.arg_spec_source_id a;
     CommonPackageConfig.pkg_tool := CommonPackageConfig.arg_pkg_tool a |}.

(** A list argument refers to a list object of the world. *)
Definition given_in (w : World) (o : option loc) : Prop :=
  match o with
  | Some l => (l < length (heap w))%nat
  | None => True
  end.

(** The content of a list argument, [[]] standing for an absent one. *)
Definition content (w : World) (o : option loc) : list SyncFilesItem :=
  match o with
  | Some l => heap w !!! l
  | None => []
  end.

(** Construction with the defaults of the signature and a packaging tool. *)
Definition tool_args (tool : option string) : CommonPackageConfig.Args :=
  {| CommonPackageConfig.arg_config_file_path := None;
     CommonPackageConfig.arg_specfile_path := None;
     CommonPackageConfig.arg_synced_files := None;
     CommonPackageConfig.arg_files_to_sync := None;
     CommonPackageConfig.arg_dist_git_namespace := None;
     CommonPackageConfig.arg_upstream_package_name := None;
     CommonPackageConfig.arg_downstream_project_url := None;
     CommonPackageConfig.arg_downstream_package_name := None;
     CommonPackageConfig.arg_dist_git_base_url := None;
     CommonPackageConfig.arg_spec_source_id := "Source0";
     CommonPackageConfig.arg_pkg_tool := tool |}.

(** The failure on an unknown tool as the specification words it: any
    tool name that the registry lacks makes the construction fail. *)
Definition as_stated_unknown_tool
  (from_url_and_namespace : string -> option string -> DistGitInstance)
  (registry : gmap string DistGitInstance) : Prop :=
  forall a w tool,
    CommonPackageConfig.arg_dist_git_base_url a = None ->
    CommonPackageConfig.arg_pkg_tool a = Some tool ->
    registry !! tool = None ->
    exists w',
      CommonPackageConfig.__init__ from_url_and_namespace registry a w
        = (raise (KeyError tool), w').

(** Construction with the defaults of the signature, the two paths and
    the two file-sync lists. *)
Definition sync_args (config_file specfile : option string)
  (synced_files files_to_sync : option loc) : CommonPackageConfig.Args :=
  {| CommonPackageConfig.arg_config_file_path := config_file;
     CommonPackageConfig.arg_specfile_path := specfile;
     CommonPackageConfig.arg_synced_files := synced_files;
     CommonPackageConfig.arg_files_to_sync := files_to_sync;
     CommonPackageConfig.arg_dist_git_namespace := None;
     CommonPackageConfig.arg_upstream_package_name := None;
     CommonPackageConfig.arg_downstream_project_url := None;
     CommonPackageConfig.arg_downstream_package_name := None;
     CommonPackageConfig.arg_dist_git_base_url := None;
     CommonPackageConfig.arg_spec_source_id := "Source0";
     CommonPackageConfig.arg_pkg_tool := None |}.

Definition readme_item : SyncFilesItem :=
  {| src := [Some "README.md"]; dest := Some "README.md" |}.

(** A caller holding two list objects: a list of one descriptor at
    reference 0 and an empty list at reference 1. *)
Definition caller_world : World :=
  {| heap := [[readme_item]; []]; log := []; environ := ∅ |}.

(** The descriptor of the configuration file. *)
Definition config_item (self : CommonPackageConfig.t) : SyncFilesItem :=
  {| src := [CommonPackageConfig.config_file_path self];
     dest := CommonPackageConfig.config_file_path self |}.

(** What the legacy inclusion adds to a list [fs], [spec_item] being the
    descriptor of the specfile: each of the two descriptors, unless its
    source path is among the sources already there. *)
Definition legacy_extra (self : CommonPackageConfig.t) (spec_item : SyncFilesItem)
  (fs : list SyncFilesItem) : list SyncFilesItem :=
  let spec :=
    if in_srcs (CommonPackageConfig.specfile_path self) fs then [] else [spec_item] in
  let config :=
    if truthy (CommonPackageConfig.config_file_path self)
       && negb (in_srcs (CommonPackageConfig.config_file_path self) (fs ++ spec))
    then [config_item self] else [] in
  spec ++ config.

(** "Never produces duplicate source paths", as the specification words
    it: whatever the configuration and the lists it refers to. *)
Definition no_duplicate_sources_as_stated : Prop :=
  forall (self : CommonPackageConfig.t) (w w' : World) (l : loc),
    CommonPackageConfig.get_all_files_to_sync self w = (ok l, w') ->
    NoDup (iter_srcs (heap w' !!! l)).

(** A caller whose list at reference 0 names the same source twice. *)
Definition twice_world : World :=
  {| heap := [[readme_item; readme_item]]; log := []; environ := ∅ |}.

(** A legacy configuration: only [synced_files] was given, as the list at
    reference 0 of [caller_world]; and the world after its construction. *)
Definition legacy_args : CommonPackageConfig.Args :=
  sync_args (Some ".packit.yaml") (Some "pkg.spec") (Some 0%nat) None.

Definition legacy_config : CommonPackageConfig.t := built legacy_args 2 0 fedora.

Definition legacy_world : World :=
  {| heap := [[readme_item]; []; []];
     log := [Logged CommonPackageConfig.deprecated_msg;
             Deprecation CommonPackageConfig.deprecated_msg];
     environ := ∅ |}.

Definition spec_item : SyncFilesItem :=
  {| src := [Some "pkg.spec"]; dest := Some "pkg.spec" |}.

Definition packit_yaml_item : SyncFilesItem :=
  {| src := [Some ".packit.yaml"]; dest := Some ".packit.yaml" |}.

(** A new-style configuration over the same list. *)
Definition new_style_config : CommonPackageConfig.t :=
  built (sync_args (Some ".packit.yaml") (Some "pkg.spec") None (Some 0%nat)) 0 2 fedora.

(** A configuration with the defaults of the signature, a resolved
    instance, a downstream name and a downstream URL. *)
Definition named_config (inst : DistGitInstance)
  (name project_url : option string) : CommonPackageConfig.t :=
  {| CommonPackageConfig.config_file_path := None;
     CommonPackageConfig.specfile_path := None;
     CommonPackageConfig._files_to_sync := 0%nat;
     CommonPackageConfig._files_to_sync_used := false;
     CommonPackageConfig.synced_files := 1%nat;
     CommonPackageConfig.upstream_package_name := None;
     CommonPackageConfig.downstream_package_name := name;
     CommonPackageConfig._downstream_project_url := project_url;
     CommonPackageConfig.dist_git_instance := inst;
     CommonPackageConfig.spec_source_id := "Source0";
     CommonPackageConfig.pkg_tool := None |}.

(** [dist_git_package_url] as the specification words it: null when the
    name is unset, otherwise the base URL, the namespace and
    ["<name>.git"] put one after the other. *)
Definition dist_git_package_url_as_stated (self : CommonPackageConfig.t)
  : option string :=
  match CommonPackageConfig.downstream_package_name self with
  | None => None
  | Some name =>
      Some (CommonPackageConfig.dist_git_base_url self
            +:+ fmt (CommonPackageConfig.dist_git_namespace self)
            +:+ name +:+ ".git")
  end.

(** What happens to a configuration object after its construction, as far
    as [downstream_project_url] is concerned: the property is read, or a
    field that its computation reads is assigned. *)
Inductive access : Type :=
| Read
| SetName (name : option string)
| SetInstance (inst : DistGitInstance).

(** The values that the reads of a sequence of accesses return, in
    order, and the object at the end. *)
Fixpoint run (ops : list access) (self : CommonPackageConfig.t)
  : list (option string) * CommonPackageConfig.t :=
  match ops with
  | [] => ([], self)
  | Read :: rest =>
      let (v, self') := CommonPackageConfig.downstream_project_url self in
      let (vs, self'') := run rest self' in
      (v :: vs, self'')
  | SetName name :: rest =>
      run rest (CommonPackageConfig.set_downstream_package_name name self)
  | SetInstance inst :: rest =>
      run rest (CommonPackageConfig.set_dist_git_instance inst self)
  end.

(** The memoization as the specification words it: after a first read,
    every later read returns what the first one returned. *)
Definition memoized_as_stated : Prop :=
  forall (self : CommonPackageConfig.t) (ops : list access) (v : option string),
    v ∈ fst (run ops (snd (CommonPackageConfig.downstream_project_url self))) ->
    v = fst (CommonPackageConfig.downstream_project_url self).

(** Packages to evaluate the facade on: plain objects whose attributes
    hold integers, read and assigned through their instance dictionary. *)
Definition plain_getattr (p : gmap string Z) (name : string)
  : result (MultiplePackages.value (gmap string Z) Z) :=
  match p !! name with
  | Some z => ok (MultiplePackages.Other z)
  | None => raise (AttributeError ("object has no attribute '" +:+ name +:+ "'"))
  end.

Definition plain_setattr (p : gmap string Z) (name : string)
  (v : MultiplePackages.value (gmap string Z) Z) : result (gmap string Z) :=
  match v with
  | MultiplePackages.Other z => ok (<[name := z]> p)
  | _ => raise (TypeError "an integer is required")
  end.

Definition timeout_package : gmap string Z := {["timeout" := 7200%Z]}.

Definition one_package : gmap string (MultiplePackages.value (gmap string Z) Z) :=
  <["_first_package" := MultiplePackages.Str "pkg"]>
    {["packages" := MultiplePackages.Packages [("pkg", timeout_package)]]}.

Definition two_packages : gmap string (MultiplePackages.value (gmap string Z) Z) :=
  <["_first_package" := MultiplePackages.Str "a"]>
    {["packages" := MultiplePackages.Packages
                      [("a", timeout_package); ("b", timeout_package)]]}.

(** The collection of the specification's example: a single package
    "pkg" with the upstream name "up" and no downstream name. *)
Definition up_config : CommonPackageConfig.t :=
  {| CommonPackageConfig.config_file_path := None;
     CommonPackageConfig.specfile_path := None;
     CommonPackageConfig._files_to_sync := 0%nat;
     CommonPackageConfig._files_to_sync_used := false;
     CommonPackageConfig.synced_files := 1%nat;
     CommonPackageConfig.upstream_package_name := Some "up";
     CommonPackageConfig.downstream_package_name := None;
     CommonPackageConfig._downstream_project_url := None;
     CommonPackageConfig.dist_git_instance := fedora;
     CommonPackageConfig.spec_source_id := "Source0";
     CommonPackageConfig.pkg_tool := None |}.

Definition pkg_collection : gmap string (MultiplePackages.value CommonPackageConfig.t Z) :=
  <["_first_package" := MultiplePackages.Str "pkg"]>
    {["packages" := MultiplePackages.Packages [("pkg", up_config)]]}.
(** * Further reference definitions *)




(** ["".join(pieces)] *)
Fixpoint join (pieces : list string) : string :=
  match pieces with
  | [] => EmptyString
  | x :: r => x +:+ join r
  end.

(** The notices that a construction emits, by the arguments given: the
    deprecation of [synced_files], logged and raised as a warning, and
    the remark on giving both options. *)
Definition deprecation_notices (a : CommonPackageConfig.Args) : list notice :=
  match CommonPackageConfig.arg_synced_files a with
  | None => []
  | Some _ =>
      [Logged CommonPackageConfig.deprecated_msg;
       Deprecation CommonPackageConfig.deprecated_msg]
      ++ match CommonPackageConfig.arg_files_to_sync a with
         | None => []
         | Some _ => [Logged CommonPackageConfig.both_msg]
         end
  end.


(** Attribute access on a configuration, for the one attribute
    [upstream_package_name]; [Other tt] stands for [None]. *)
Definition name_getattr (p : CommonPackageConfig.t) (name : string)
  : result (MultiplePackages.value CommonPackageConfig.t unit) :=
  if String.eqb name "upstream_package_name"
  then ok (match CommonPackageConfig.upstream_package_name p with
           | Some s => MultiplePackages.Str s
           | None => MultiplePackages.Other tt
           end)
  else raise (AttributeError ("object has no attribute '" +:+ name +:+ "'")).

Definition name_setattr (p : CommonPackageConfig.t) (name : string)
  (v : MultiplePackages.value CommonPackageConfig.t unit)
  : result CommonPackageConfig.t :=
  raise (AttributeError ("can't set attribute '" +:+ name +:+ "'")).

Definition config_collection
  : gmap string (MultiplePackages.value CommonPackageConfig.t unit) :=
  <["_first_package" := MultiplePackages.Str "pkg"]>
    {["packages" := MultiplePackages.Packages [("pkg", up_config)]]}.

(** ** The targets of a configuration

    The [_targets] attribute and its two views, as the constructor and
    the properties [targets_dict] and [targets] compute them. The options
    of a target are a [dict[str, Any]]: a finite map to values of any
    type [O]. Dicts are compared by content, as Python compares them. *)
Module Targets.
Section Targets.

Context {O : Type}.

(** The [_targets] argument when it is not [None]: a list of names or a
    mapping from names to options. *)
Inductive arg : Type :=
| Names (names : list string)
| Mapping (d : gmap string (gmap string O)).

(** [{key: {} for key in _targets}] *)
Definition dict_of_names (names : list string) : gmap string (gmap string O) :=
  foldl (fun d key => <[key := ∅]> d) ∅ names.

(** [d or {}] on a dict. *)
Definition or_empty_dict (d : gmap string (gmap string O)) : gmap string (gmap string O) :=
  if decide (d = ∅) then ∅ else d.

(** The assignment of [self._targets] in the constructor. *)
Definition init_targets (_targets : option arg) : gmap string (gmap string O) :=
  match _targets with
  | Some (Names names) => dict_of_names names
  | Some (Mapping d) => or_empty_dict d
  | None => ∅
  end.

Definition targets_dict (_targets : gmap string (gmap string O))
  : gmap string (gmap string O) := _targets.

(** [set(self._targets.keys())] *)
Definition targets (_targets : gmap string (gmap string O)) : gset string :=
  dom _targets.

End Targets.
End Targets.
(** * Properties *)

(** ** The numeric part of [spec_source_id] *)

Lemma split_go_nonempty b s : split_go b s <> [].
Proof.
  destruct s as [|c r]; simpl.
  - destruct b; discriminate.
  - destruct (Bool.eqb (is_digit c) b); [|discriminate].
    destruct (split_go b r); discriminate.
Qed.

Lemma tail_cons_head c l : l <> [] -> tail (cons_head c l) = tail l.
Proof. destruct l; [congruence | reflexivity]. Qed.





Example split_digits_Source0 : split_digits "Source0" = ["Source"; "0"; ""].
Proof. reflexivity. Qed.

Example split_digits_mixed : split_digits "a12b3c" = ["a"; "12"; "b"; "3"; "c"].
Proof. reflexivity. Qed.

Example split_digits_Patch : split_digits "Patch" = ["Patch"].
Proof. reflexivity. Qed.

(** ** Dist-git instance resolution *)

Lemma truthy_Some s : truthy (Some s) = negb (String.eqb s "").
Proof. reflexivity. Qed.

Lemma truthy_nonempty s : s <> "" -> truthy (Some s) = true.
Proof.
  intros H. rewrite truthy_Some. apply negb_true_iff. now apply String.eqb_neq.
Qed.

(** An empty tool name is given, yet no registry entry is looked up for
    it: the environment, then the default, decide. *)
Lemma resolution_empty_tool_counterexample :
  DistGit._construct_dist_git_instance mkDistGit sample_registry
      None None (Some "") empty_world
    = (ok fedora, empty_world)
  /\ resolution_as_stated mkDistGit sample_registry None None (Some "") empty_world
    = (raise (KeyError ""), empty_world)
  /\ DistGit._construct_dist_git_instance mkDistGit sample_registry
       None None (Some "") empty_world
     <> resolution_as_stated mkDistGit sample_registry None None (Some "") empty_world.
Proof.
  assert (H1 : DistGit._construct_dist_git_instance mkDistGit sample_registry
                 None None (Some "") empty_world = (ok fedora, empty_world))
    by (vm_compute; reflexivity).
  assert (H2 : resolution_as_stated mkDistGit sample_registry None None (Some "")
                 empty_world = (raise (KeyError ""), empty_world))
    by (vm_compute; reflexivity).
  split; [exact H1|]. split; [exact H2|].
  rewrite H1, H2. discriminate.
Qed.

Section ResolutionFacts.

Variable from_url_and_namespace : string -> option string -> DistGitInstance.
Variable registry : gmap string DistGitInstance.

Local Abbreviation resolve :=
  (DistGit._construct_dist_git_instance from_url_and_namespace registry).

Lemma resolve_base_url u ns tool w :
  resolve (Some u) ns tool w = (ok (from_url_and_namespace u ns), w).
Proof. reflexivity. Qed.

Lemma resolve_tool ns t w :
  t <> "" ->
  resolve None ns (Some t) w = (DistGit.registry_getitem registry t, w).
Proof.
  intros Ht. unfold DistGit._construct_dist_git_instance.
  now rewrite (truthy_nonempty t Ht).
Qed.

Lemma resolve_environment ns tool w :
  truthy tool = false ->
  resolve None ns tool w =
    (match environ w !! "DISTGIT_URL" with
     | Some u => ok (from_url_and_namespace u (environ w !! "DISTGIT_NAMESPACE"))
     | None => DistGit.registry_getitem registry "fedpkg"
     end, w).
Proof.
  intros Ht. unfold DistGit._construct_dist_git_instance. rewrite Ht.
  unfold bind, getenv. simpl.
  destruct (environ w !! "DISTGIT_URL"); reflexivity.
Qed.

(** The resolution leaves the world as it is, and reads only the
    environment in it. *)
Lemma resolve_world base ns tool w : snd (resolve base ns tool w) = w.
Proof.
  destruct base as [u|]; [reflexivity|].
  destruct (truthy tool) eqn:Ht.
  - unfold DistGit._construct_dist_git_instance. now rewrite Ht.
  - now rewrite resolve_environment.
Qed.

Lemma resolve_environ_only base ns tool w w' :
  environ w = environ w' ->
  fst (resolve base ns tool w) = fst (resolve base ns tool w').
Proof.
  intros He. destruct base as [u|]; [reflexivity|].
  destruct (truthy tool) eqn:Ht.
  - unfold DistGit._construct_dist_git_instance. now rewrite Ht.
  - rewrite !resolve_environment by assumption. simpl. now rewrite He.
Qed.

End ResolutionFacts.

(** ** Construction *)

Section ConstructionFacts.

Variable from_url_and_namespace : string -> option string -> DistGitInstance.
Variable registry : gmap string DistGitInstance.

Local Abbreviation init :=
  (CommonPackageConfig.__init__ from_url_and_namespace registry).
Local Abbreviation resolve_args a :=
  (DistGit._construct_dist_git_instance from_url_and_namespace registry
     (CommonPackageConfig.arg_dist_git_base_url a)
     (CommonPackageConfig.arg_dist_git_namespace a)
     (CommonPackageConfig.arg_pkg_tool a)).

(** The constructor is its list part followed by the resolution. *)
Lemma init_unfold a w :
  init a w =
    match init_lists a w with
    | (inl e, w1) => (inl e, w1)
    | (inr (files, synced), w1) =>
        match resolve_args a w1 with
        | (inl e, w2) => (inl e, w2)
        | (inr inst, w2) => (ok (built a files synced inst), w2)
        end
    end.
Proof.
  unfold CommonPackageConfig.__init__, init_lists, bind.
  destruct (or_new_list (CommonPackageConfig.arg_files_to_sync a) w) as [[e|files] w1];
    [reflexivity|].
  destruct (or_new_list (CommonPackageConfig.arg_synced_files a) w1) as [[e|synced] w2];
    [reflexivity|].
  destruct (bool_decide (CommonPackageConfig.arg_synced_files a ≠ None)).
  - destruct (CommonPackageConfig._warn_user _ w2) as [[e|[]] w3]; [reflexivity|].
    unfold ret. simpl.
    destruct (resolve_args a w3) as [[e|inst] w4]; reflexivity.
  - unfold ret. simpl.
    destruct (resolve_args a w2) as [[e|inst] w4]; reflexivity.
Qed.

Lemma or_new_list_ok o w :
  exists l w', or_new_list o w = (ok l, w')
    /\ log w' = log w /\ environ w' = environ w
    /\ (exists ext, heap w' = heap w ++ ext)
    /\ (l < length (heap w'))%nat
    /\ (given_in w o -> heap w' !!! l = content w o)
    /\ (forall l0, o = Some l0 -> heap w !!! l0 <> [] -> l = l0).
Proof.
  destruct o as [l0|]; simpl.
  - unfold bind, deref. simpl.
    destruct (heap w !!! l0) as [|x xs] eqn:Hc.
    + exists (length (heap w)). eexists. split; [reflexivity|]. simpl.
      repeat split; eauto.
      * rewrite length_app. simpl. lia.
      * intros _. apply list_lookup_total_middle. reflexivity.
      * intros ? [= <-] Hn. congruence.
    + exists l0, w. split; [reflexivity|].
      repeat split.
      * exists []. now rewrite app_nil_r.
      * destruct (decide (l0 < length (heap w))%nat) as [Hlt|Hge]; [exact Hlt|].
        rewrite list_lookup_total_alt in Hc.
        rewrite lookup_ge_None_2 in Hc by lia. discriminate.
      * intros _. exact Hc.
      * intros ? [= ->] _. reflexivity.
  - exists (length (heap w)). eexists. split; [reflexivity|]. simpl.
    repeat split; eauto.
    + rewrite length_app. simpl. lia.
    + intros _. apply list_lookup_total_middle. reflexivity.
    + discriminate.
Qed.

Lemma warn_user_ok b w :
  exists w', CommonPackageConfig._warn_user b w = (ok tt, w')
    /\ heap w' = heap w /\ environ w' = environ w.
Proof.
  unfold CommonPackageConfig._warn_user, bind, emit. simpl.
  destruct b; eexists; (split; [reflexivity|]); split; reflexivity.
Qed.

Lemma total_lookup_nonempty_lt (h : list (list SyncFilesItem)) l :
  h !!! l <> [] -> (l < length h)%nat.
Proof.
  intros Hne. destruct (decide (l < length h)%nat) as [Hlt|Hge]; [exact Hlt|].
  exfalso. apply Hne. rewrite list_lookup_total_alt.
  now rewrite lookup_ge_None_2 by lia.
Qed.

Lemma content_app w w' o ext :
  heap w' = heap w ++ ext -> given_in w o -> content w' o = content w o.
Proof.
  intros Hh Hg. destruct o as [l|]; [|reflexivity]. simpl in *.
  rewrite Hh. now apply lookup_total_app_l.
Qed.

Lemma given_in_app w w' o ext :
  heap w' = heap w ++ ext -> given_in w o -> given_in w' o.
Proof.
  intros Hh Hg. destruct o as [l|]; [|exact I]. simpl in *.
  rewrite Hh, length_app. lia.
Qed.

(** The list part of the constructor always succeeds; it may create list
    objects, and it leaves the existing ones and the environment alone. *)
Lemma init_lists_ok a w :
  exists files synced w1,
    init_lists a w = (ok (files, synced), w1)
    /\ environ w1 = environ w
    /\ (exists ext, heap w1 = heap w ++ ext)
    /\ (files < length (heap w1))%nat /\ (synced < length (heap w1))%nat
    /\ (given_in w (CommonPackageConfig.arg_files_to_sync a) ->
        heap w1 !!! files = content w (CommonPackageConfig.arg_files_to_sync a))
    /\ (given_in w (CommonPackageConfig.arg_synced_files a) ->
        heap w1 !!! synced = content w (CommonPackageConfig.arg_synced_files a))
    /\ (forall l, CommonPackageConfig.arg_files_to_sync a = Some l ->
                  heap w !!! l <> [] -> files = l)
    /\ (forall l, CommonPackageConfig.arg_synced_files a = Some l ->
                  heap w !!! l <> [] -> synced = l).
Proof.
  unfold init_lists, bind.
  destruct (or_new_list_ok (CommonPackageConfig.arg_files_to_sync a) w)
    as (f & wa & -> & Hla & Hea & [ext1 Hha] & Hfa & Hca & Hia).
  destruct (or_new_list_ok (CommonPackageConfig.arg_synced_files a) wa)
    as (s & wb & -> & Hlb & Heb & [ext2 Hhb] & Hsb & Hcb & Hib).
  assert (Hfb : heap wb !!! f = heap wa !!! f)
    by (rewrite Hhb; now apply lookup_total_app_l).
  assert (Hend : forall wc, heap wc = heap wb -> environ wc = environ wb ->
            environ wc = environ w
            /\ (exists ext, heap wc = heap w ++ ext)
            /\ (f < length (heap wc))%nat /\ (s < length (heap wc))%nat
            /\ (given_in w (CommonPackageConfig.arg_files_to_sync a) ->
                heap wc !!! f = content w (CommonPackageConfig.arg_files_to_sync a))
            /\ (given_in w (CommonPackageConfig.arg_synced_files a) ->
                heap wc !!! s = content w (CommonPackageConfig.arg_synced_files a))
            /\ (forall l, CommonPackageConfig.arg_files_to_sync a = Some l ->
                          heap w !!! l <> [] -> f = l)
            /\ (forall l, CommonPackageConfig.arg_synced_files a = Some l ->
                          heap w !!! l <> [] -> s = l)).
  { intros wc Hhc Hec. rewrite Hhc.
    split; [congruence|].
    split; [exists (ext1 ++ ext2); rewrite Hhb, Hha; now rewrite app_assoc|].
    split; [rewrite Hhb, length_app; lia|].
    split; [exact Hsb|].
    split; [intros Hg; rewrite Hfb; now apply Hca|].
    split; [intros Hg; rewrite Hcb by (eapply given_in_app; eauto);
            eapply content_app; eauto|].
    split; [exact Hia|].
    intros l Hl Hne. apply (Hib l Hl).
    rewrite Hha, lookup_total_app_l; [exact Hne|].
    now apply total_lookup_nonempty_lt. }
  destruct (bool_decide (CommonPackageConfig.arg_synced_files a ≠ None)).
  - destruct (warn_user_ok
                (bool_decide (CommonPackageConfig.arg_files_to_sync a ≠ None)) wb)
      as (wc & -> & Hhc & Hec).
    exists f, s, wc. split; [reflexivity|]. now apply Hend.
  - exists f, s, wb. split; [reflexivity|]. now apply Hend.
Qed.

End ConstructionFacts.

(** C2 (as amended). The resolution follows a four-step precedence:
    (a) a base URL that is given, even an empty one, is used, whatever the
    tool and the environment; (b) else a tool name that is given and not
    empty is looked up in the registry; (c) else, the tool being absent or
    empty, [DISTGIT_URL] is used when it is set, with [DISTGIT_NAMESPACE]
    whether set or not; (d) else the registry's "fedpkg" entry is used.
    The constructor resolves once, in the environment of its call, and the
    accessors read the stored instance. *)
Theorem resolution_precedence
  (from_url_and_namespace : string -> option string -> DistGitInstance)
  (registry : gmap string DistGitInstance) :
  let resolve :=
    DistGit._construct_dist_git_instance from_url_and_namespace registry in
  (forall u ns tool w,
     resolve (Some u) ns tool w = (ok (from_url_and_namespace u ns), w))
  /\ (forall ns t w,
        t <> "" ->
        resolve None ns (Some t) w = (DistGit.registry_getitem registry t, w))
  /\ (forall ns tool w u,
        tool = None \/ tool = Some "" ->
        environ w !! "DISTGIT_URL" = Some u ->
        resolve None ns tool w
          = (ok (from_url_and_namespace u (environ w !! "DISTGIT_NAMESPACE")), w))
  /\ (forall ns tool w,
        tool = None \/ tool = Some "" ->
        environ w !! "DISTGIT_URL" = None ->
        resolve None ns tool w = (DistGit.registry_getitem registry "fedpkg", w))
  /\ (forall a w self w',
        CommonPackageConfig.__init__ from_url_and_namespace registry a w = (ok self, w') ->
        fst (resolve (CommonPackageConfig.arg_dist_git_base_url a)
                     (CommonPackageConfig.arg_dist_git_namespace a)
                     (CommonPackageConfig.arg_pkg_tool a) w)
          = ok (CommonPackageConfig.dist_git_instance self)
        /\ CommonPackageConfig.dist_git_base_url self
             = url (CommonPackageConfig.dist_git_instance self)
        /\ CommonPackageConfig.dist_git_namespace self
             = namespace (CommonPackageConfig.dist_git_instance self)).
Proof.
  intros resolve. subst resolve.
  assert (Hfalsy : forall tool, tool = None \/ tool = Some "" -> truthy tool = false)
    by (intros tool [-> | ->]; reflexivity).
  split; [intros; apply resolve_base_url|].
  split; [intros; now apply resolve_tool|].
  split.
  { intros ns tool w u Ht Hu. rewrite resolve_environment by auto. now rewrite Hu. }
  split.
  { intros ns tool w Ht Hu. rewrite resolve_environment by auto. now rewrite Hu. }
  intros a w self w' Hinit.
  rewrite init_unfold in Hinit.
  destruct (init_lists_ok a w) as (f & s & w1 & Hl & Hen & _).
  rewrite Hl in Hinit.
  split; [|split; reflexivity].
  rewrite (resolve_environ_only _ _ _ _ _ w w1) by congruence.
  destruct (DistGit._construct_dist_git_instance _ _ _ _ _ w1) as [[e|inst] w2];
    [discriminate|].
  injection Hinit as <- _. reflexivity.
Qed.

Lemma resolution_precedence_witness :
  DistGit._construct_dist_git_instance mkDistGit sample_registry
      None (Some "ns") (Some "centpkg") staging_world
    = (ok centos, staging_world)
  /\ DistGit._construct_dist_git_instance mkDistGit sample_registry
       None None (Some "") staging_world
     = (ok (mkDistGit "https://stg.example/" (Some "stg")), staging_world)
  /\ DistGit._construct_dist_git_instance mkDistGit sample_registry
       None None None empty_world
     = (ok fedora, empty_world)
  /\ CommonPackageConfig.dist_git_base_url
       (built (tool_args (Some "centpkg")) 0 1 centos) = "https://gitlab.com/".
Proof.
  destruct (resolution_precedence mkDistGit sample_registry)
    as (_ & Hb & Hc & Hd & He).
  split; [apply (Hb (Some "ns") "centpkg" staging_world); discriminate|].
  split; [apply (Hc None (Some "") staging_world "https://stg.example/");
          [right; reflexivity | reflexivity]|].
  split; [apply (Hd None None empty_world); [left; reflexivity | reflexivity]|].
  destruct (He (tool_args (Some "centpkg")) staging_world
              (built (tool_args (Some "centpkg")) 0 1 centos)
              {| heap := [[]; []]; log := []; environ := environ staging_world |}
              eq_refl) as (_ & Hu & _).
  exact Hu.
Defined.

(** An empty tool name is no key of the registry, and yet the
    construction succeeds. *)
Lemma unknown_tool_counterexample :
  sample_registry !! "" = None
  /\ CommonPackageConfig.__init__ mkDistGit sample_registry
       (tool_args (Some "")) empty_world
     = (ok (built (tool_args (Some "")) 0 1 fedora),
        {| heap := [[]; []]; log := []; environ := ∅ |})
  /\ ~ as_stated_unknown_tool mkDistGit sample_registry.
Proof.
  assert (Hrun : CommonPackageConfig.__init__ mkDistGit sample_registry
                   (tool_args (Some "")) empty_world
                 = (ok (built (tool_args (Some "")) 0 1 fedora),
                    {| heap := [[]; []]; log := []; environ := ∅ |}))
    by reflexivity.
  split; [reflexivity|]. split; [exact Hrun|].
  intros H.
  destruct (H (tool_args (Some "")) empty_world "" eq_refl eq_refl eq_refl)
    as [w' Hw'].
  rewrite Hrun in Hw'. discriminate.
Qed.

(** C4 (as amended). With no base URL and a tool name that is given, not
    empty and no key of the registry, the construction fails with the
    [KeyError] of the registry lookup, which carries the tool name. With a
    non-empty tool name that is a key of the registry the construction
    succeeds, on the registry's entry. *)
Theorem unknown_tool_fails
  (from_url_and_namespace : string -> option string -> DistGitInstance)
  (registry : gmap string DistGitInstance) :
  (forall a w tool,
     CommonPackageConfig.arg_dist_git_base_url a = None ->
     CommonPackageConfig.arg_pkg_tool a = Some tool ->
     tool <> "" ->
     registry !! tool = None ->
     exists w',
       CommonPackageConfig.__init__ from_url_and_namespace registry a w
         = (raise (KeyError tool), w'))
  /\ (forall a w tool inst,
        CommonPackageConfig.arg_dist_git_base_url a = None ->
        CommonPackageConfig.arg_pkg_tool a = Some tool ->
        tool <> "" ->
        registry !! tool = Some inst ->
        exists self w',
          CommonPackageConfig.__init__ from_url_and_namespace registry a w
            = (ok self, w')
          /\ CommonPackageConfig.dist_git_instance self = inst).
Proof.
  split.
  - intros a w tool Hb Ht Hne Hreg.
    rewrite init_unfold.
    destruct (init_lists_ok a w) as (f & s & w1 & -> & _).
    rewrite Hb, Ht, resolve_tool by assumption.
    unfold DistGit.registry_getitem. rewrite Hreg. eauto.
  - intros a w tool inst Hb Ht Hne Hreg.
    rewrite init_unfold.
    destruct (init_lists_ok a w) as (f & s & w1 & -> & _).
    rewrite Hb, Ht, resolve_tool by assumption.
    unfold DistGit.registry_getitem. rewrite Hreg. simpl. eauto.
Qed.

Lemma unknown_tool_fails_witness :
  (exists w',
     CommonPackageConfig.__init__ mkDistGit sample_registry
       (tool_args (Some "rhpkg")) empty_world = (raise (KeyError "rhpkg"), w'))
  /\ (exists self w',
        CommonPackageConfig.__init__ mkDistGit sample_registry
          (tool_args (Some "centpkg")) empty_world = (ok self, w')
        /\ CommonPackageConfig.dist_git_instance self = centos).
Proof.
  destruct (unknown_tool_fails mkDistGit sample_registry) as (Hfail & Hok).
  split.
  - apply (Hfail (tool_args (Some "rhpkg")) empty_world "rhpkg");
      [reflexivity | reflexivity | discriminate | reflexivity].
  - apply (Hok (tool_args (Some "centpkg")) empty_world "centpkg" centos);
      [reflexivity | reflexivity | discriminate | reflexivity].
Defined.

(** ** The file-sync lists *)

(** C1. After a construction, [files_to_sync] returns the list given as
    [files_to_sync] whenever that argument was given, even when it is
    empty; otherwise the list given as [synced_files] when that one is
    not empty (the very list object); otherwise an empty list. *)
Theorem files_to_sync_precedence
  (from_url_and_namespace : string -> option string -> DistGitInstance)
  (registry : gmap string DistGitInstance)
  (a : CommonPackageConfig.Args) (w w' : World) (self : CommonPackageConfig.t) :
  given_in w (CommonPackageConfig.arg_files_to_sync a) ->
  given_in w (CommonPackageConfig.arg_synced_files a) ->
  CommonPackageConfig.__init__ from_url_and_namespace registry a w = (ok self, w') ->
  exists l w'',
    CommonPackageConfig.files_to_sync self w' = (ok l, w'')
    /\ (forall l0, CommonPackageConfig.arg_files_to_sync a = Some l0 ->
          heap w'' !!! l = heap w !!! l0
          /\ (heap w !!! l0 <> [] -> l = l0))
    /\ (CommonPackageConfig.arg_files_to_sync a = None ->
        forall l1, CommonPackageConfig.arg_synced_files a = Some l1 ->
          heap w !!! l1 <> [] ->
          l = l1 /\ heap w'' !!! l = heap w !!! l1)
    /\ (CommonPackageConfig.arg_files_to_sync a = None ->
        content w (CommonPackageConfig.arg_synced_files a) = [] ->
        heap w'' !!! l = []).
Proof.
  intros Hgf Hgs Hinit.
  rewrite init_unfold in Hinit.
  destruct (init_lists_ok a w)
    as (f & s & w1 & Hl & _ & _ & Hf & Hs & Hcf & Hcs & Hif & His).
  rewrite Hl in Hinit.
  pose proof (resolve_world from_url_and_namespace registry
                (CommonPackageConfig.arg_dist_git_base_url a)
                (CommonPackageConfig.arg_dist_git_namespace a)
                (CommonPackageConfig.arg_pkg_tool a) w1) as Hw.
  destruct (DistGit._construct_dist_git_instance _ _ _ _ _ w1) as [[e|inst] w2];
    [discriminate|].
  simpl in Hw. subst w2. injection Hinit as <- <-.
  unfold CommonPackageConfig.files_to_sync, built; simpl.
  destruct (CommonPackageConfig.arg_files_to_sync a) as [l0|] eqn:Ha; simpl.
  - exists f, w1. split; [reflexivity|].
    split; [|split; discriminate].
    intros ? [= <-]. split; [now apply Hcf | now apply Hif].
  - unfold bind, deref; simpl.
    specialize (Hcs Hgs).
    destruct (heap w1 !!! s) as [|x xs] eqn:Hc.
    + exists (length (heap w1)). eexists. split; [reflexivity|]. simpl.
      split; [discriminate|].
      split.
      * intros _ l1 Hl1 Hne. rewrite Hl1 in Hcs. simpl in Hcs. congruence.
      * intros _ _. apply list_lookup_total_middle. reflexivity.
    + exists s, w1. split; [reflexivity|].
      split; [discriminate|].
      split.
      * intros _ l1 Hl1 Hne. rewrite (His l1 Hl1 Hne) in *.
        rewrite Hl1 in Hcs. simpl in Hcs. split; congruence.
      * intros _ He. congruence.
Qed.

(** Constructing with [files_to_sync=[]] and a non-empty [synced_files]
    yields an empty list. *)
Lemma files_to_sync_precedence_witness :
  exists l w'',
    CommonPackageConfig.files_to_sync
      (built (sync_args None None (Some 0%nat) (Some 1%nat)) 2 0 fedora)
      {| heap := [[readme_item]; []; []];
         log := [Logged CommonPackageConfig.deprecated_msg;
                 Deprecation CommonPackageConfig.deprecated_msg;
                 Logged CommonPackageConfig.both_msg];
         environ := ∅ |}
      = (ok l, w'')
    /\ heap w'' !!! l = [].
Proof.
  destruct (files_to_sync_precedence mkDistGit sample_registry
              (sync_args None None (Some 0%nat) (Some 1%nat)) caller_world
              {| heap := [[readme_item]; []; []];
                 log := [Logged CommonPackageConfig.deprecated_msg;
                         Deprecation CommonPackageConfig.deprecated_msg;
                         Logged CommonPackageConfig.both_msg];
                 environ := ∅ |}
              (built (sync_args None None (Some 0%nat) (Some 1%nat)) 2 0 fedora))
    as (l & w'' & Hrun & Hnew & _).
  - simpl. lia.
  - simpl. lia.
  - reflexivity.
  - exists l, w''. split; [exact Hrun|].
    destruct (Hnew 1%nat eq_refl) as [Hc _]. exact Hc.
Defined.

Lemma files_to_sync_new_style self w :
  CommonPackageConfig._files_to_sync_used self = true ->
  CommonPackageConfig.files_to_sync self w
    = (ok (CommonPackageConfig._files_to_sync self), w).
Proof. intros H. unfold CommonPackageConfig.files_to_sync. now rewrite H. Qed.

(** A non-empty deprecated list is returned as the object it is. *)
Lemma files_to_sync_legacy_stored self w :
  CommonPackageConfig._files_to_sync_used self = false ->
  heap w !!! CommonPackageConfig.synced_files self <> [] ->
  CommonPackageConfig.files_to_sync self w
    = (ok (CommonPackageConfig.synced_files self), w).
Proof.
  intros H Hne. unfold CommonPackageConfig.files_to_sync, bind, deref.
  rewrite H. simpl.
  destruct (heap w !!! CommonPackageConfig.synced_files self); [congruence|reflexivity].
Qed.

(** In legacy mode the list that is read is a list object of the world
    after the read. *)
Lemma files_to_sync_legacy_valid self w l w0 :
  CommonPackageConfig._files_to_sync_used self = false ->
  CommonPackageConfig.files_to_sync self w = (ok l, w0) ->
  (l < length (heap w0))%nat.
Proof.
  intros H. unfold CommonPackageConfig.files_to_sync, bind, deref.
  rewrite H. simpl.
  destruct (heap w !!! CommonPackageConfig.synced_files self) eqn:Hc.
  - unfold alloc. intros [= <- <-]. simpl. rewrite length_app. simpl. lia.
  - intros [= <- <-]. apply total_lookup_nonempty_lt. now rewrite Hc.
Qed.

Lemma files_to_sync_total self w :
  exists l w0, CommonPackageConfig.files_to_sync self w = (ok l, w0).
Proof.
  unfold CommonPackageConfig.files_to_sync, bind, deref.
  destruct (CommonPackageConfig._files_to_sync_used self); [eauto|]. simpl.
  destruct (heap w !!! CommonPackageConfig.synced_files self); eauto.
Qed.

Lemma specfile_item_src self it :
  CommonPackageConfig.get_specfile_sync_files_item self false = ok it ->
  src it = [CommonPackageConfig.specfile_path self].
Proof.
  unfold CommonPackageConfig.get_specfile_sync_files_item, rbind.
  destruct (truthy (CommonPackageConfig.downstream_package_name self)).
  - intros [= <-]. reflexivity.
  - destruct (basename (CommonPackageConfig.specfile_path self)); [discriminate|].
    intros [= <-]. reflexivity.
Qed.

(** The legacy inclusion, on the list that [files_to_sync] resolves to:
    the list object is extended in place, the rest of the world stays. *)
Lemma get_all_files_to_sync_legacy self it w l w0 :
  CommonPackageConfig._files_to_sync_used self = false ->
  CommonPackageConfig.get_specfile_sync_files_item self false = ok it ->
  CommonPackageConfig.files_to_sync self w = (ok l, w0) ->
  exists w',
    CommonPackageConfig.get_all_files_to_sync self w = (ok l, w')
    /\ heap w' = <[l := (heap w0 !!! l) ++ legacy_extra self it (heap w0 !!! l)]> (heap w0)
    /\ log w' = log w0 /\ environ w' = environ w0.
Proof.
  intros Hused Hit Hfts.
  pose proof (files_to_sync_legacy_valid self w l w0 Hused Hfts) as Hlt.
  unfold CommonPackageConfig.get_all_files_to_sync, bind.
  rewrite Hfts, Hused. simpl.
  unfold legacy_extra.
  set (fs := heap w0 !!! l).
  assert (Hid : heap w0 = <[l := fs]> (heap w0)).
  { symmetry. apply list_insert_id. subst fs.
    apply list_lookup_lookup_total_lt. exact Hlt. }
  destruct (in_srcs (CommonPackageConfig.specfile_path self) fs) eqn:Hspec; simpl.
  - fold fs.
    destruct (truthy (CommonPackageConfig.config_file_path self)
              && negb (in_srcs (CommonPackageConfig.config_file_path self) (fs ++ [])))
      eqn:Hcfg; rewrite app_nil_r in Hcfg; rewrite Hcfg; simpl.
    + eexists. split; [reflexivity|]. simpl. fold fs. auto.
    + eexists. split; [reflexivity|]. rewrite app_nil_r. auto.
  - rewrite Hit. simpl.
    rewrite list_lookup_total_insert_eq by exact Hlt. fold fs.
    destruct (truthy (CommonPackageConfig.config_file_path self)
              && negb (in_srcs (CommonPackageConfig.config_file_path self) (fs ++ [it])));
      simpl.
    + eexists. split; [reflexivity|]. simpl.
      rewrite list_lookup_total_insert_eq by exact Hlt. fold fs.
      rewrite list_insert_insert_eq.
      replace (fs ++ [it; config_item self]) with ((fs ++ [it]) ++ [config_item self])
        by now rewrite <- app_assoc.
      auto.
    + eexists. split; [reflexivity|]. simpl. fold fs. auto.
Qed.

Lemma iter_srcs_app fs gs : iter_srcs (fs ++ gs) = iter_srcs fs ++ iter_srcs gs.
Proof. unfold iter_srcs. apply flat_map_app. Qed.

Lemma in_srcs_false x fs : in_srcs x fs = false -> x ∉ iter_srcs fs.
Proof. unfold in_srcs. intros H. now apply bool_decide_eq_false in H. Qed.

Lemma nodup_snoc (l : list (option string)) x : x ∉ l -> NoDup l -> NoDup (l ++ [x]).
Proof.
  intros Hx Hl. apply NoDup_app. split; [exact Hl|]. split.
  - intros y Hy Hin. apply list_elem_of_singleton in Hin. congruence.
  - apply NoDup_singleton.
Qed.

(** The legacy inclusion adds no source path that is already there. *)
Lemma legacy_extra_nodup self it fs :
  src it = [CommonPackageConfig.specfile_path self] ->
  NoDup (iter_srcs fs) ->
  NoDup (iter_srcs (fs ++ legacy_extra self it fs)).
Proof.
  intros Hsrc Hnd. unfold legacy_extra.
  assert (Hstep : NoDup (iter_srcs
            (fs ++ (if in_srcs (CommonPackageConfig.specfile_path self) fs
                    then [] else [it])))).
  { destruct (in_srcs (CommonPackageConfig.specfile_path self) fs) eqn:Hs.
    - now rewrite app_nil_r.
    - rewrite iter_srcs_app. simpl. rewrite Hsrc. simpl.
      apply nodup_snoc; [now apply in_srcs_false | exact Hnd]. }
  set (spec := if in_srcs (CommonPackageConfig.specfile_path self) fs
               then [] else [it]) in *.
  destruct (truthy (CommonPackageConfig.config_file_path self)) eqn:Ht; simpl.
  - destruct (in_srcs (CommonPackageConfig.config_file_path self) (fs ++ spec)) eqn:Hc;
      simpl.
    + now rewrite app_nil_r.
    + rewrite app_assoc, iter_srcs_app. simpl.
      apply nodup_snoc; [now apply in_srcs_false | exact Hstep].
  - now rewrite app_nil_r.
Qed.

(** The new-style list is returned as it is, duplicates included. *)
Lemma no_duplicate_sources_counterexample :
  CommonPackageConfig.__init__ mkDistGit sample_registry
      (sync_args None None None (Some 0%nat)) twice_world
    = (ok (built (sync_args None None None (Some 0%nat)) 0 1 fedora),
       {| heap := [[readme_item; readme_item]; []]; log := []; environ := ∅ |})
  /\ CommonPackageConfig.get_all_files_to_sync
       (built (sync_args None None None (Some 0%nat)) 0 1 fedora)
       {| heap := [[readme_item; readme_item]; []]; log := []; environ := ∅ |}
     = (ok 0%nat,
        {| heap := [[readme_item; readme_item]; []]; log := []; environ := ∅ |})
  /\ iter_srcs [readme_item; readme_item] = [Some "README.md"; Some "README.md"]
  /\ ~ no_duplicate_sources_as_stated.
Proof.
  split; [reflexivity|]. split; [reflexivity|]. split; [reflexivity|].
  intros H.
  specialize (H (built (sync_args None None None (Some 0%nat)) 0 1 fedora)
                {| heap := [[readme_item; readme_item]; []]; log := []; environ := ∅ |}
                {| heap := [[readme_item; readme_item]; []]; log := []; environ := ∅ |}
                0%nat eq_refl).
  simpl in H. apply NoDup_cons in H as [Hin _].
  apply Hin. apply list_elem_of_singleton. reflexivity.
Qed.

(** C5 (as amended). When the new-style option was given,
    [get_all_files_to_sync] returns the stored list and changes nothing.
    When it was not, and the descriptor of the specfile can be built, the
    result is the resolved list extended with the descriptor of the
    specfile and the descriptor of the configuration file, each one
    skipped when its source path is among the sources already there; the
    call adds no duplicate, so a resolved list without duplicate source
    paths gives a result without duplicate source paths. *)
Theorem get_all_files_to_sync_extends (self : CommonPackageConfig.t) (w : World) :
  (CommonPackageConfig._files_to_sync_used self = true ->
   CommonPackageConfig.get_all_files_to_sync self w
     = (ok (CommonPackageConfig._files_to_sync self), w))
  /\ (CommonPackageConfig._files_to_sync_used self = false ->
      forall it,
        CommonPackageConfig.get_specfile_sync_files_item self false = ok it ->
        exists l w0 w',
          CommonPackageConfig.files_to_sync self w = (ok l, w0)
          /\ CommonPackageConfig.get_all_files_to_sync self w = (ok l, w')
          /\ heap w' !!! l = heap w0 !!! l ++ legacy_extra self it (heap w0 !!! l)
          /\ (NoDup (iter_srcs (heap w0 !!! l)) -> NoDup (iter_srcs (heap w' !!! l)))).
Proof.
  split.
  - intros Hused. unfold CommonPackageConfig.get_all_files_to_sync, bind.
    rewrite files_to_sync_new_style by exact Hused. now rewrite Hused.
  - intros Hused it Hit.
    destruct (files_to_sync_total self w) as (l & w0 & Hfts).
    destruct (get_all_files_to_sync_legacy self it w l w0 Hused Hit Hfts)
      as (w' & Hrun & Hheap & _).
    pose proof (files_to_sync_legacy_valid self w l w0 Hused Hfts) as Hlt.
    assert (Hc : heap w' !!! l = heap w0 !!! l ++ legacy_extra self it (heap w0 !!! l))
      by (rewrite Hheap; now apply list_lookup_total_insert_eq).
    exists l, w0, w'. repeat split; try assumption.
    intros Hnd. rewrite Hc.
    apply legacy_extra_nodup; [now apply specfile_item_src | exact Hnd].
Qed.

Example legacy_config_constructed :
  CommonPackageConfig.__init__ mkDistGit sample_registry legacy_args caller_world
    = (ok legacy_config, legacy_world).
Proof. reflexivity. Qed.

Lemma get_all_files_to_sync_extends_witness :
  CommonPackageConfig.get_all_files_to_sync new_style_config legacy_world
    = (ok 0%nat, legacy_world)
  /\ exists w',
       CommonPackageConfig.get_all_files_to_sync legacy_config legacy_world
         = (ok 0%nat, w')
       /\ heap w' !!! 0%nat = [readme_item; spec_item; packit_yaml_item]
       /\ NoDup (iter_srcs (heap w' !!! 0%nat)).
Proof.
  split.
  - apply (get_all_files_to_sync_extends new_style_config legacy_world). reflexivity.
  - destruct (get_all_files_to_sync_extends legacy_config legacy_world) as [_ Hlegacy].
    destruct (Hlegacy eq_refl spec_item eq_refl) as (l & w0 & w' & Hread & Hrun & Hc & Hnd).
    injection Hread as <- <-.
    exists w'. split; [exact Hrun|]. split; [exact Hc|].
    apply Hnd. apply NoDup_singleton.
Defined.

Example get_all_files_to_sync_legacy_run :
  CommonPackageConfig.get_all_files_to_sync legacy_config legacy_world
    = (ok 0%nat,
       {| heap := [[readme_item; spec_item; packit_yaml_item]; []; []];
          log := log legacy_world; environ := ∅ |}).
Proof. reflexivity. Qed.

(** Without a specfile path and without a downstream name the descriptor
    of the specfile cannot be built: the legacy inclusion raises. *)
Example get_all_files_to_sync_no_specfile :
  CommonPackageConfig.get_all_files_to_sync
    (built (sync_args None None (Some 0%nat) None) 2 0 fedora) legacy_world
  = (raise (TypeError "expected str, bytes or os.PathLike object, not NoneType"),
     legacy_world).
Proof. reflexivity. Qed.



(** ** The dist-git URLs *)

Lemma append_nonempty_r (s t : string) : t <> "" -> s +:+ t <> "".
Proof. intros Ht. destruct s; simpl; [exact Ht | discriminate]. Qed.

Lemma dist_git_package_url_truthy self u :
  CommonPackageConfig.dist_git_package_url self = Some u -> truthy (Some u) = true.
Proof.
  unfold CommonPackageConfig.dist_git_package_url.
  destruct (truthy (CommonPackageConfig.downstream_package_name self)); [|discriminate].
  intros [= <-]. apply truthy_nonempty.
  repeat apply append_nonempty_r. discriminate.
Qed.

Lemma truthy_false_iff (o : option string) :
  truthy o = false <-> o = None \/ o = Some "".
Proof.
  split.
  - destruct o as [s|]; [|now left]. rewrite truthy_Some.
    intros H. apply negb_false_iff, String.eqb_eq in H. right. now subst.
  - intros [-> | ->]; reflexivity.
Qed.

(** The namespace "rpms/" of the example doubles the slash. *)
Lemma dist_git_package_url_counterexample :
  CommonPackageConfig.dist_git_package_url
      (named_config (mkDistGit "https://example/" (Some "rpms/")) (Some "foo") None)
    = Some "https://example/rpms//foo.git"
  /\ dist_git_package_url_as_stated
       (named_config (mkDistGit "https://example/" (Some "rpms/")) (Some "foo") None)
     = Some "https://example/rpms/foo.git"
  /\ CommonPackageConfig.dist_git_package_url
       (named_config (mkDistGit "https://example/" (Some "rpms/")) (Some "foo") None)
     <> Some "https://example/rpms/foo.git".
Proof. split; [reflexivity|]. split; [reflexivity|]. discriminate. Qed.

(** C6 (as amended). [dist_git_package_url] is null exactly when
    [downstream_package_name] is unset or empty; otherwise it is the base
    URL, the namespace, a slash and ["<name>.git"] put one after the
    other: base "https://example/", namespace "rpms" and name "foo" give
    "https://example/rpms/foo.git". *)
Theorem dist_git_package_url_format :
  (forall self,
     (CommonPackageConfig.dist_git_package_url self = None
      <-> CommonPackageConfig.downstream_package_name self = None
          \/ CommonPackageConfig.downstream_package_name self = Some "")
     /\ (forall name,
           CommonPackageConfig.downstream_package_name self = Some name ->
           name <> "" ->
           CommonPackageConfig.dist_git_package_url self
             = Some (CommonPackageConfig.dist_git_base_url self
                     +:+ fmt (CommonPackageConfig.dist_git_namespace self)
                     +:+ "/" +:+ name +:+ ".git")))
  /\ CommonPackageConfig.dist_git_package_url
       (named_config (mkDistGit "https://example/" (Some "rpms")) (Some "foo") None)
     = Some "https://example/rpms/foo.git".
Proof.
  split; [|reflexivity].
  intros self. unfold CommonPackageConfig.dist_git_package_url. split.
  - rewrite <- truthy_false_iff.
    destruct (truthy (CommonPackageConfig.downstream_package_name self));
      split; congruence.
  - intros name Hn Hne. rewrite Hn, (truthy_nonempty name Hne). reflexivity.
Qed.

Lemma dist_git_package_url_format_witness :
  CommonPackageConfig.dist_git_package_url
    (named_config (mkDistGit "https://example/" None) (Some "foo") None)
  = Some "https://example/None/foo.git".
Proof.
  destruct dist_git_package_url_format as [H _].
  destruct (H (named_config (mkDistGit "https://example/" None) (Some "foo") None))
    as [_ Hfmt].
  apply (Hfmt "foo"); [reflexivity | discriminate].
Defined.

(** A first read that returns null stores nothing: once the name is set,
    the next read returns the URL. *)
Lemma downstream_project_url_counterexample :
  fst (CommonPackageConfig.downstream_project_url (named_config fedora None None))
    = None
  /\ fst (run [SetName (Some "foo"); Read]
            (snd (CommonPackageConfig.downstream_project_url
                    (named_config fedora None None))))
     = [Some "https://src.fedoraproject.org/rpms/foo.git"]
  /\ ~ memoized_as_stated.
Proof.
  split; [reflexivity|]. split; [reflexivity|].
  intros H.
  specialize (H (named_config fedora None None) [SetName (Some "foo"); Read]
                (Some "https://src.fedoraproject.org/rpms/foo.git")).
  simpl in H. discriminate H. apply list_elem_of_singleton. reflexivity.
Qed.

(** The cache attribute, once it holds a non-empty URL, is kept by every
    access, and every read returns it. *)
Lemma run_cached ops : forall self u v,
  CommonPackageConfig._downstream_project_url self = Some u ->
  truthy (Some u) = true ->
  v ∈ fst (run ops self) -> v = Some u.
Proof.
  induction ops as [|op rest IH]; intros self u v Hc Ht Hin; simpl in Hin.
  - apply elem_of_nil in Hin. contradiction.
  - destruct op as [|name|inst].
    + unfold CommonPackageConfig.downstream_project_url in Hin.
      rewrite Hc, Ht in Hin. simpl in Hin.
      destruct (run rest self) as [vs self''] eqn:Hr. simpl in Hin.
      apply elem_of_cons in Hin as [-> | Hin]; [reflexivity|].
      apply (IH self u v Hc Ht). now rewrite Hr.
    + apply (IH _ u v) in Hin; [exact Hin | exact Hc | exact Ht].
    + apply (IH _ u v) in Hin; [exact Hin | exact Hc | exact Ht].
Qed.

(** C3 (as amended). Once a read of [downstream_project_url] has returned
    a URL (a non-null value), every later read returns that same URL,
    whatever is assigned to [downstream_package_name] or to the dist-git
    instance in between. A read that returns null stores nothing: the next
    read computes [dist_git_package_url] from the fields as they are
    then. *)
Theorem downstream_project_url_memoized :
  (forall self ops u v,
     fst (CommonPackageConfig.downstream_project_url self) = Some u ->
     v ∈ fst (run ops (snd (CommonPackageConfig.downstream_project_url self))) ->
     v = Some u)
  /\ (forall self name,
        fst (CommonPackageConfig.downstream_project_url self) = None ->
        fst (CommonPackageConfig.downstream_project_url
               (CommonPackageConfig.set_downstream_package_name name
                  (snd (CommonPackageConfig.downstream_project_url self))))
        = CommonPackageConfig.dist_git_package_url
            (CommonPackageConfig.set_downstream_package_name name self)).
Proof.
  split.
  - intros self ops u v Hfirst Hin.
    unfold CommonPackageConfig.downstream_project_url in Hfirst, Hin.
    destruct (truthy (CommonPackageConfig._downstream_project_url self)) eqn:Ht;
      simpl in Hfirst, Hin.
    + apply (run_cached ops self u v); [exact Hfirst | | exact Hin].
      now rewrite <- Hfirst.
    + apply (run_cached ops _ u v) in Hin; [exact Hin | exact Hfirst |].
      now apply (dist_git_package_url_truthy self).
  - intros self name Hfirst.
    unfold CommonPackageConfig.downstream_project_url in *.
    destruct (truthy (CommonPackageConfig._downstream_project_url self)) eqn:Ht;
      simpl in *.
    + rewrite Hfirst in Ht. discriminate.
    + rewrite Hfirst. reflexivity.
Qed.

Lemma downstream_project_url_memoized_witness :
  Forall (fun v => v = Some "https://src.fedoraproject.org/rpms/foo.git")
    (fst (run [SetName (Some "bar"); Read; SetInstance centos; SetName None; Read]
            (snd (CommonPackageConfig.downstream_project_url
                    (named_config fedora (Some "foo") None))))).
Proof.
  destruct downstream_project_url_memoized as [Hmemo _].
  apply Forall_forall. intros v.
  apply (Hmemo (named_config fedora (Some "foo") None)
               [SetName (Some "bar"); Read; SetInstance centos; SetName None; Read]
               "https://src.fedoraproject.org/rpms/foo.git" v).
  reflexivity.
Defined.

(** ** The facade *)

Section FacadeFacts.

Context {P V : Type}.
Variable getattr : P -> string -> result (MultiplePackages.value P V).
Variable setattr : P -> string -> MultiplePackages.value P V -> result P.

Local Abbreviation obj := (gmap string (MultiplePackages.value P V)).

(** What the constructor stores. *)
Lemma facade_init (d : list (string * P)) (self : obj) :
  MultiplePackages.__init__ d = ok self ->
  self !! "packages" = Some (MultiplePackages.Packages d)
  /\ exists k p rest,
       d = (k, p) :: rest /\ self !! "_first_package" = Some (MultiplePackages.Str k).
Proof.
  unfold MultiplePackages.__init__, MultiplePackages.super_setattr, rbind.
  destruct d as [|[k p] rest]; simpl; [discriminate|].
  intros [= <-]. split.
  - rewrite lookup_insert_ne by discriminate. apply lookup_insert_eq.
  - exists k, p, rest. split; [reflexivity|]. apply lookup_insert_eq.
Qed.

Lemma dict_get_first (k : string) (p : P) rest :
  MultiplePackages.dict_get ((k, p) :: rest) k = Some p.
Proof. simpl. now rewrite String.eqb_refl. Qed.

Lemma dict_set_first (k : string) (p p' : P) rest :
  MultiplePackages.dict_set ((k, p) :: rest) k p' = (k, p') :: rest.
Proof. simpl. now rewrite String.eqb_refl. Qed.

End FacadeFacts.

(** C8. A collection is what the constructor built from the dict [d],
    possibly with further attributes of its own, and [name] is not an
    attribute of the collection. With exactly one package, reading [name]
    is reading it on that package, and assigning [name] is assigning it
    on that package, which the collection then holds changed. With more
    than one package both fail with an [AttributeError] whose message
    names the attribute. *)
Theorem facade_forwards_or_is_ambiguous {P V : Type}
  (getattr : P -> string -> result (MultiplePackages.value P V))
  (setattr : P -> string -> MultiplePackages.value P V -> result P)
  (d : list (string * P)) (self0 self : gmap string (MultiplePackages.value P V))
  (name : string) :
  MultiplePackages.__init__ d = ok self0 ->
  self0 ⊆ self ->
  self !! name = None ->
  (forall k p, d = [(k, p)] ->
     MultiplePackages.__getattr__ getattr self name = getattr p name
     /\ forall v,
          MultiplePackages.__setattr__ setattr self name v
          = rbind (setattr p name v)
              (fun p' => ok (<["packages" := MultiplePackages.Packages [(k, p')]]> self)))
  /\ ((1 < length d)%nat ->
      MultiplePackages.__getattr__ getattr self name
        = raise (AttributeError
                   ("It is ambiguous to get " +:+ name
                    +:+ ": there is more than one package in the config."))
      /\ forall v,
           MultiplePackages.__setattr__ setattr self name v
           = raise (AttributeError
                      ("It is ambiguous to set " +:+ name
                       +:+ ": there is more than one package in the config."))).
Proof.
  intros Hinit Hsub Hname.
  destruct (facade_init d self0 Hinit) as (Hp0 & k0 & p0 & rest & Hd & Hf0).
  assert (Hp : self !! "packages" = Some (MultiplePackages.Packages d))
    by (eapply lookup_weaken; eauto).
  assert (Hf : self !! "_first_package" = Some (MultiplePackages.Str k0))
    by (eapply lookup_weaken; eauto).
  assert (Hin : MultiplePackages.in_dict name self
                || negb (MultiplePackages.in_dict "packages" self) = false).
  { unfold MultiplePackages.in_dict. rewrite Hname, Hp.
    rewrite bool_decide_eq_false_2 by (intros [? ?]; discriminate).
    rewrite bool_decide_eq_true_2 by eauto. reflexivity. }
  split.
  - intros k p ->. injection Hd as -> -> <-.
    unfold MultiplePackages.__getattr__, MultiplePackages.__setattr__,
      MultiplePackages.__getattribute__.
    rewrite Hname, Hin, Hp, Hf. simpl. rewrite String.eqb_refl. simpl.
    split; [reflexivity|]. intros v.
    unfold MultiplePackages.super_setattr.
    now destruct (setattr p0 name v).
  - intros Hlen.
    unfold MultiplePackages.__getattr__, MultiplePackages.__setattr__,
      MultiplePackages.__getattribute__.
    rewrite Hname, Hin, Hp. simpl.
    destruct d as [|x [|y r]]; simpl in Hlen; try lia.
    simpl. split; [reflexivity|]. intros v. reflexivity.
Qed.

Lemma facade_forwards_or_is_ambiguous_witness :
  (MultiplePackages.__getattr__ plain_getattr one_package "timeout"
     = ok (MultiplePackages.Other 7200%Z)
   /\ MultiplePackages.__setattr__ plain_setattr one_package "timeout"
        (MultiplePackages.Other 60%Z)
      = ok (<["packages" := MultiplePackages.Packages
                              [("pkg", <["timeout" := 60%Z]> timeout_package)]]>
              one_package))
  /\ MultiplePackages.__getattr__ plain_getattr two_packages "timeout"
     = raise (AttributeError
                "It is ambiguous to get timeout: there is more than one package in the config.")
  /\ MultiplePackages.__setattr__ plain_setattr two_packages "timeout"
       (MultiplePackages.Other 60%Z)
     = raise (AttributeError
                "It is ambiguous to set timeout: there is more than one package in the config.").
Proof.
  split.
  - destruct (facade_forwards_or_is_ambiguous plain_getattr plain_setattr
                [("pkg", timeout_package)] one_package one_package "timeout"
                eq_refl (reflexivity _) eq_refl) as [Hone _].
    destruct (Hone "pkg" timeout_package eq_refl) as [Hget Hset].
    split; [exact Hget | exact (Hset (MultiplePackages.Other 60%Z))].
  - destruct (facade_forwards_or_is_ambiguous plain_getattr plain_setattr
                [("a", timeout_package); ("b", timeout_package)]
                two_packages two_packages "timeout"
                eq_refl (reflexivity _) eq_refl) as [_ Hmany].
    destruct Hmany as [Hget Hset]; [simpl; lia|].
    split; [exact Hget | exact (Hset (MultiplePackages.Other 60%Z))].
Defined.

Lemma or_empty_default (o : option string) : or_empty o = default "" o.
Proof.
  unfold or_empty. destruct o as [s|]; [|reflexivity]. rewrite truthy_Some.
  destruct (String.eqb_spec s ""); simpl; congruence.
Qed.

(** C9. On a collection of exactly one package, [get_package_names_as_env]
    returns a mapping of three entries: the key of the package, its
    upstream name and its downstream name, an unset name being rendered
    as the empty string. On a collection of no package or of several it
    raises a [PackitConfigException]. *)
Theorem get_package_names_as_env_single {V : Type}
  (self : gmap string (MultiplePackages.value CommonPackageConfig.t V))
  (d : list (string * CommonPackageConfig.t)) :
  self !! "packages" = Some (MultiplePackages.Packages d) ->
  (forall k cfg, d = [(k, cfg)] ->
     exists env,
       MultiplePackages.get_package_names_as_env self = ok env
       /\ env !! "PACKIT_CONFIG_PACKAGE_NAME" = Some k
       /\ env !! "PACKIT_UPSTREAM_PACKAGE_NAME"
          = Some (default "" (CommonPackageConfig.upstream_package_name cfg))
       /\ env !! "PACKIT_DOWNSTREAM_PACKAGE_NAME"
          = Some (default "" (CommonPackageConfig.downstream_package_name cfg))
       /\ size env = 3%nat)
  /\ (length d <> 1%nat ->
      MultiplePackages.get_package_names_as_env self
        = raise (PackitConfigException "Multiple packages in config")).
Proof.
  intros Hp.
  unfold MultiplePackages.get_package_names_as_env, MultiplePackages.__getattribute__.
  rewrite Hp. simpl. split.
  - intros k cfg ->. simpl. eexists. split; [reflexivity|].
    rewrite <- !or_empty_default.
    split; [now rewrite !lookup_insert_ne by discriminate; rewrite lookup_insert_eq|].
    split; [now rewrite lookup_insert_ne by discriminate; rewrite lookup_insert_eq|].
    split; [now rewrite lookup_insert_eq|].
    rewrite !map_size_insert_None, map_size_empty; [reflexivity| | |].
    + apply lookup_empty.
    + rewrite lookup_insert_ne by discriminate. apply lookup_empty.
    + rewrite !lookup_insert_ne by discriminate. apply lookup_empty.
  - intros Hlen. destruct d as [|x [|y r]]; simpl in *; try reflexivity.
    congruence.
Qed.

Lemma get_package_names_as_env_single_witness :
  (exists env,
     MultiplePackages.get_package_names_as_env pkg_collection = ok env
     /\ env !! "PACKIT_CONFIG_PACKAGE_NAME" = Some "pkg"
     /\ env !! "PACKIT_UPSTREAM_PACKAGE_NAME" = Some "up"
     /\ env !! "PACKIT_DOWNSTREAM_PACKAGE_NAME" = Some ""
     /\ size env = 3%nat)
  /\ MultiplePackages.get_package_names_as_env
       (<["packages" := MultiplePackages.Packages []]> pkg_collection)
     = raise (PackitConfigException "Multiple packages in config").
Proof.
  split.
  - destruct (get_package_names_as_env_single pkg_collection [("pkg", up_config)]
                eq_refl) as [Hone _].
    exact (Hone "pkg" up_config eq_refl).
  - assert (Hp : (<["packages" := MultiplePackages.Packages []]> pkg_collection)
                   !! "packages"
                 = Some (MultiplePackages.Packages [])) by apply lookup_insert_eq.
    destruct (get_package_names_as_env_single
                (<["packages" := MultiplePackages.Packages []]> pkg_collection)
                [] Hp) as [_ Hnone].
    apply Hnone. simpl. lia.
Defined.

Example get_package_names_as_env_example :
  MultiplePackages.get_package_names_as_env pkg_collection
  = ok (<["PACKIT_DOWNSTREAM_PACKAGE_NAME" := ""]>
          (<["PACKIT_UPSTREAM_PACKAGE_NAME" := "up"]>
             {["PACKIT_CONFIG_PACKAGE_NAME" := "pkg"]})).
Proof. reflexivity. Qed.

(** * Further properties of the module *)

(** ** [spec_source_id_number] *)

Lemma join_cons_head c l : l <> [] -> join (cons_head c l) = String c (join l).
Proof. destruct l; [congruence | reflexivity]. Qed.

(** [re.split] loses nothing: the pieces, put together, are the string. *)
Lemma split_go_join b s : join (split_go b s) = s.
Proof.
  revert b. induction s as [|c r IH]; intros b; simpl.
  - now destruct b.
  - destruct (Bool.eqb (is_digit c) b); simpl;
      rewrite join_cons_head by apply split_go_nonempty; now rewrite IH.
Qed.


















(** ** [get_specfile_sync_files_item] *)

Lemma basename_str_plain file : has_slash file = false -> basename_str file = file.
Proof. destruct file as [|c r]; [reflexivity|]. simpl. intros H. now rewrite H. Qed.

Lemma has_slash_middle dir file : has_slash (dir +:+ "/" +:+ file) = true.
Proof.
  induction dir as [|c r IH]; [reflexivity|].
  simpl. simpl in IH. rewrite IH. apply orb_true_r.
Qed.

Lemma basename_str_path dir file :
  has_slash file = false -> basename_str (dir +:+ "/" +:+ file) = file.
Proof.
  intros Hf. induction dir as [|c r IH].
  - simpl. now apply basename_str_plain.
  - pose proof (has_slash_middle r file) as Hs.
    simpl. simpl in Hs, IH. rewrite Hs, orb_true_r. exact IH.
Qed.

(** X3. The descriptor of the specfile exists unless both the specfile
    path and the downstream name are missing (unset, or empty for the
    name), in which case either direction raises the [TypeError] of
    [basename]. When it exists the two directions mirror each other: the
    source of one is the destination of the other. *)
Theorem specfile_item_directions (self : CommonPackageConfig.t) :
  (truthy (CommonPackageConfig.downstream_package_name self) = false ->
   CommonPackageConfig.specfile_path self = None ->
   forall from_downstream,
     CommonPackageConfig.get_specfile_sync_files_item self from_downstream
     = raise (TypeError "expected str, bytes or os.PathLike object, not NoneType"))
  /\ (truthy (CommonPackageConfig.downstream_package_name self) = true
      \/ CommonPackageConfig.specfile_path self <> None ->
      exists up_item down_item,
        CommonPackageConfig.get_specfile_sync_files_item self false = ok up_item
        /\ CommonPackageConfig.get_specfile_sync_files_item self true = ok down_item
        /\ src up_item = [CommonPackageConfig.specfile_path self]
        /\ src down_item = [dest up_item]
        /\ src up_item = [dest down_item]).
Proof.
  unfold CommonPackageConfig.get_specfile_sync_files_item, rbind. split.
  - intros -> -> fd. reflexivity.
  - intros H.
    destruct (truthy (CommonPackageConfig.downstream_package_name self)) eqn:Ht.
    + eexists _, _. repeat split.
    + destruct H as [H|H]; [discriminate|].
      destruct (CommonPackageConfig.specfile_path self) as [p|]; [|congruence].
      simpl. eexists _, _. repeat split.
Qed.

Lemma specfile_item_directions_witness :
  exists up_item down_item,
    CommonPackageConfig.get_specfile_sync_files_item legacy_config false = ok up_item
    /\ CommonPackageConfig.get_specfile_sync_files_item legacy_config true = ok down_item
    /\ src up_item = [Some "pkg.spec"]
    /\ src down_item = [dest up_item]
    /\ src up_item = [dest down_item].
Proof.
  destruct (specfile_item_directions legacy_config) as [_ H].
  apply H. right. discriminate.
Defined.

(** X4. The destination of the specfile in dist-git: ["<name>.spec"] when
    a downstream name is set; otherwise the file name of the upstream
    path, without its directories. *)
Theorem specfile_item_destination (self : CommonPackageConfig.t) :
  (forall name,
     CommonPackageConfig.downstream_package_name self = Some name -> name <> "" ->
     CommonPackageConfig.get_specfile_sync_files_item self false
     = ok {| src := [CommonPackageConfig.specfile_path self];
             dest := Some (name +:+ ".spec") |})
  /\ (forall file,
        truthy (CommonPackageConfig.downstream_package_name self) = false ->
        has_slash file = false ->
        CommonPackageConfig.specfile_path self = Some file ->
        CommonPackageConfig.get_specfile_sync_files_item self false
        = ok {| src := [Some file]; dest := Some file |})
  /\ (forall dir file,
        truthy (CommonPackageConfig.downstream_package_name self) = false ->
        has_slash file = false ->
        CommonPackageConfig.specfile_path self = Some (dir +:+ "/" +:+ file) ->
        CommonPackageConfig.get_specfile_sync_files_item self false
        = ok {| src := [Some (dir +:+ "/" +:+ file)]; dest := Some file |}).
Proof.
  unfold CommonPackageConfig.get_specfile_sync_files_item, rbind.
  split; [|split].
  - intros name Hn Hne. rewrite Hn, (truthy_nonempty name Hne). reflexivity.
  - intros file -> Hf ->. simpl. now rewrite basename_str_plain.
  - intros dir file -> Hf ->. simpl. now rewrite basename_str_path.
Qed.

Lemma specfile_item_destination_witness :
  CommonPackageConfig.get_specfile_sync_files_item
    (built (sync_args None (Some ("fedora" +:+ "/" +:+ "pkg.spec")) None None) 0 1 fedora)
    false
  = ok {| src := [Some "fedora/pkg.spec"]; dest := Some "pkg.spec" |}.
Proof.
  destruct (specfile_item_destination
              (built (sync_args None (Some ("fedora" +:+ "/" +:+ "pkg.spec")) None None)
                 0 1 fedora)) as (_ & _ & H).
  apply (H "fedora" "pkg.spec"); reflexivity.
Defined.

(** ** [files_to_sync] and [get_all_files_to_sync], beyond the claims *)

Lemma world_eq (a b : World) :
  heap a = heap b -> log a = log b -> environ a = environ b -> a = b.
Proof. destruct a, b; simpl; intros; subst; reflexivity. Qed.

(** A legacy read: the stored list object when it is not empty, a new
    empty list object otherwise. *)
Lemma files_to_sync_legacy_cases self w l w0 :
  CommonPackageConfig._files_to_sync_used self = false ->
  CommonPackageConfig.files_to_sync self w = (ok l, w0) ->
  heap w0 !!! l = heap w !!! CommonPackageConfig.synced_files self
  /\ ((heap w !!! CommonPackageConfig.synced_files self <> []
       /\ l = CommonPackageConfig.synced_files self /\ w0 = w)
      \/ (heap w !!! CommonPackageConfig.synced_files self = []
          /\ l = length (heap w) /\ heap w0 = heap w ++ [[]]
          /\ log w0 = log w /\ environ w0 = environ w)).
Proof.
  intros Hused. unfold CommonPackageConfig.files_to_sync, bind, deref.
  rewrite Hused. simpl.
  destruct (heap w !!! CommonPackageConfig.synced_files self) eqn:Hc.
  - unfold alloc. intros [= <- <-]. simpl. split.
    + apply list_lookup_total_middle. reflexivity.
    + right. auto.
  - intros [= <- <-]. split; [exact Hc|]. left. repeat split. discriminate.
Qed.

(** Every outcome of the legacy inclusion: it raises what the
    construction of the specfile descriptor raises, when that descriptor
    is needed; otherwise it extends the list object in place. *)
Lemma get_all_legacy_outcome self w l w0 :
  CommonPackageConfig._files_to_sync_used self = false ->
  CommonPackageConfig.files_to_sync self w = (ok l, w0) ->
  (forall e,
     in_srcs (CommonPackageConfig.specfile_path self) (heap w0 !!! l) = false ->
     CommonPackageConfig.get_specfile_sync_files_item self false = inl e ->
     CommonPackageConfig.get_all_files_to_sync self w = (inl e, w0))
  /\ (forall it,
        in_srcs (CommonPackageConfig.specfile_path self) (heap w0 !!! l) = true
        \/ CommonPackageConfig.get_specfile_sync_files_item self false = ok it ->
        exists w',
          CommonPackageConfig.get_all_files_to_sync self w = (ok l, w')
          /\ heap w' = <[l := (heap w0 !!! l) ++ legacy_extra self it (heap w0 !!! l)]> (heap w0)
          /\ log w' = log w0 /\ environ w' = environ w0).
Proof.
  intros Hused Hfts.
  pose proof (files_to_sync_legacy_valid self w l w0 Hused Hfts) as Hlt.
  split.
  - intros e Hspec He.
    unfold CommonPackageConfig.get_all_files_to_sync, bind.
    rewrite Hfts, Hused. simpl. rewrite Hspec. simpl. now rewrite He.
  - intros it [Hspec|Hit].
    + unfold CommonPackageConfig.get_all_files_to_sync, bind.
      rewrite Hfts, Hused. simpl. unfold legacy_extra.
      set (fs := heap w0 !!! l). fold fs in Hspec. rewrite Hspec. simpl.
      fold fs. rewrite app_nil_r.
      destruct (truthy (CommonPackageConfig.config_file_path self)
                && negb (in_srcs (CommonPackageConfig.config_file_path self) fs));
        simpl.
      * eexists. split; [reflexivity|]. simpl. fold fs. auto.
      * eexists. split; [reflexivity|]. rewrite app_nil_r.
        split; [|auto]. symmetry. apply list_insert_id. subst fs.
        now apply list_lookup_lookup_total_lt.
    + now apply get_all_files_to_sync_legacy.
Qed.

Lemma in_srcs_true x fs : x ∈ iter_srcs fs -> in_srcs x fs = true.
Proof. intros H. unfold in_srcs. now apply bool_decide_eq_true_2. Qed.

Lemma in_srcs_app_l x fs gs : in_srcs x fs = true -> in_srcs x (fs ++ gs) = true.
Proof.
  unfold in_srcs. intros H. apply bool_decide_eq_true in H.
  apply bool_decide_eq_true_2. rewrite iter_srcs_app. apply elem_of_app. now left.
Qed.

Lemma in_srcs_snoc x fs it : src it = [x] -> in_srcs x (fs ++ [it]) = true.
Proof.
  intros Hs. apply in_srcs_true. rewrite iter_srcs_app. apply elem_of_app. right.
  simpl. rewrite Hs. simpl. apply list_elem_of_singleton. reflexivity.
Qed.

(** After the legacy inclusion both paths are among the sources. *)
Lemma legacy_extra_includes self it fs :
  in_srcs (CommonPackageConfig.specfile_path self) fs = true
  \/ src it = [CommonPackageConfig.specfile_path self] ->
  in_srcs (CommonPackageConfig.specfile_path self) (fs ++ legacy_extra self it fs) = true
  /\ (truthy (CommonPackageConfig.config_file_path self) = true ->
      in_srcs (CommonPackageConfig.config_file_path self)
        (fs ++ legacy_extra self it fs) = true).
Proof.
  intros H. unfold legacy_extra.
  set (spec := if in_srcs (CommonPackageConfig.specfile_path self) fs
               then [] else [it]).
  assert (Hspec : in_srcs (CommonPackageConfig.specfile_path self) (fs ++ spec) = true).
  { subst spec.
    destruct (in_srcs (CommonPackageConfig.specfile_path self) fs) eqn:Hs.
    - now rewrite app_nil_r.
    - destruct H as [H|H]; [discriminate|]. now apply in_srcs_snoc. }
  rewrite app_assoc. split.
  - now apply in_srcs_app_l.
  - intros Ht. rewrite Ht. simpl.
    destruct (in_srcs (CommonPackageConfig.config_file_path self) (fs ++ spec)) eqn:Hc;
      simpl.
    + now rewrite app_nil_r.
    + now apply in_srcs_snoc.
Qed.

(** Once both paths are among the sources there is nothing to add. *)
Lemma legacy_extra_nothing self it fs :
  in_srcs (CommonPackageConfig.specfile_path self) fs = true ->
  (truthy (CommonPackageConfig.config_file_path self) = true ->
   in_srcs (CommonPackageConfig.config_file_path self) fs = true) ->
  legacy_extra self it fs = [].
Proof.
  intros Hs Hc. unfold legacy_extra. rewrite Hs. simpl. rewrite app_nil_r.
  destruct (truthy (CommonPackageConfig.config_file_path self)); [|reflexivity].
  now rewrite Hc.
Qed.

Lemma specfile_item_error self fd e :
  CommonPackageConfig.get_specfile_sync_files_item self fd = inl e ->
  truthy (CommonPackageConfig.downstream_package_name self) = false
  /\ CommonPackageConfig.specfile_path self = None
  /\ e = TypeError "expected str, bytes or os.PathLike object, not NoneType".
Proof.
  unfold CommonPackageConfig.get_specfile_sync_files_item, rbind.
  destruct (truthy (CommonPackageConfig.downstream_package_name self)); [discriminate|].
  destruct (CommonPackageConfig.specfile_path self); simpl; [discriminate|].
  intros [= <-]. auto.
Qed.

(** X5. Whenever the legacy inclusion returns, the specfile path is among
    the sources of the returned list, and so is the path of the
    configuration file when there is one. *)
Theorem get_all_files_to_sync_includes_defaults
  (self : CommonPackageConfig.t) (w w' : World) (l : loc) :
  CommonPackageConfig._files_to_sync_used self = false ->
  CommonPackageConfig.get_all_files_to_sync self w = (ok l, w') ->
  in_srcs (CommonPackageConfig.specfile_path self) (heap w' !!! l) = true
  /\ (truthy (CommonPackageConfig.config_file_path self) = true ->
      in_srcs (CommonPackageConfig.config_file_path self) (heap w' !!! l) = true).
Proof.
  intros Hused Hrun.
  destruct (files_to_sync_total self w) as (l0 & w0 & Hfts).
  pose proof (files_to_sync_legacy_valid self w l0 w0 Hused Hfts) as Hlt.
  destruct (get_all_legacy_outcome self w l0 w0 Hused Hfts) as [Herr Hok].
  assert (Hcase : exists it,
            (in_srcs (CommonPackageConfig.specfile_path self) (heap w0 !!! l0) = true
             \/ CommonPackageConfig.get_specfile_sync_files_item self false = ok it)
            /\ (in_srcs (CommonPackageConfig.specfile_path self) (heap w0 !!! l0) = true
                \/ src it = [CommonPackageConfig.specfile_path self])).
  { destruct (in_srcs (CommonPackageConfig.specfile_path self) (heap w0 !!! l0)) eqn:Hs.
    - exists (mkSync [] None). auto.
    - destruct (CommonPackageConfig.get_specfile_sync_files_item self false)
        as [e|it] eqn:Hit.
      + rewrite (Herr e eq_refl eq_refl) in Hrun. discriminate.
      + exists it. split; [now right|]. right. now apply specfile_item_src. }
  destruct Hcase as (it & Hgo & Hsrc).
  destruct (Hok it Hgo) as (w1 & Hrun1 & Hheap & _).
  rewrite Hrun1 in Hrun. injection Hrun as <- <-.
  rewrite Hheap, list_lookup_total_insert_eq by exact Hlt.
  now apply legacy_extra_includes.
Qed.

Lemma get_all_files_to_sync_includes_defaults_witness :
  in_srcs (Some "pkg.spec") [readme_item; spec_item; packit_yaml_item] = true
  /\ in_srcs (Some ".packit.yaml") [readme_item; spec_item; packit_yaml_item] = true.
Proof.
  destruct (get_all_files_to_sync_includes_defaults legacy_config legacy_world
              {| heap := [[readme_item; spec_item; packit_yaml_item]; []; []];
                 log := log legacy_world; environ := ∅ |}
              0%nat eq_refl eq_refl) as [Hs Hc].
  split; [exact Hs | exact (Hc eq_refl)].
Defined.

(** X6. [get_all_files_to_sync] raises in exactly one situation: the
    new-style option was not given, there is neither a specfile path nor
    a (non-empty) downstream name, and no descriptor of the stored list
    has a null source. The exception is the [TypeError] of [basename]. *)
Theorem get_all_files_to_sync_raises_iff (self : CommonPackageConfig.t) (w : World) :
  ((exists e w', CommonPackageConfig.get_all_files_to_sync self w = (inl e, w'))
   <-> CommonPackageConfig._files_to_sync_used self = false
       /\ CommonPackageConfig.specfile_path self = None
       /\ truthy (CommonPackageConfig.downstream_package_name self) = false
       /\ in_srcs None (heap w !!! CommonPackageConfig.synced_files self) = false)
  /\ (forall e w',
        CommonPackageConfig.get_all_files_to_sync self w = (inl e, w') ->
        e = TypeError "expected str, bytes or os.PathLike object, not NoneType").
Proof.
  destruct (CommonPackageConfig._files_to_sync_used self) eqn:Hused.
  { assert (Hrun : CommonPackageConfig.get_all_files_to_sync self w
                   = (ok (CommonPackageConfig._files_to_sync self), w)).
    { unfold CommonPackageConfig.get_all_files_to_sync, bind.
      rewrite files_to_sync_new_style by exact Hused. now rewrite Hused. }
    rewrite Hrun. split.
    - split; [intros (e & w' & H); discriminate | intros (H & _); discriminate].
    - intros e w' H. discriminate. }
  destruct (files_to_sync_total self w) as (l0 & w0 & Hfts).
  destruct (files_to_sync_legacy_cases self w l0 w0 Hused Hfts) as [Hc _].
  destruct (get_all_legacy_outcome self w l0 w0 Hused Hfts) as [Herr Hok].
  rewrite Hc in Herr, Hok.
  destruct (in_srcs (CommonPackageConfig.specfile_path self)
              (heap w !!! CommonPackageConfig.synced_files self)) eqn:Hs.
  { destruct (Hok (mkSync [] None)) as (w1 & -> & _); [now left|]. split.
    - split; [intros (e & w' & H); discriminate|].
      intros (_ & Hp & _ & Hn). rewrite Hp in Hs. congruence.
    - intros e w' H. discriminate. }
  destruct (CommonPackageConfig.get_specfile_sync_files_item self false)
    as [e|it] eqn:Hit.
  - destruct (specfile_item_error self false e Hit) as (Ht & Hp & ->).
    rewrite (Herr _ eq_refl eq_refl). split.
    + split; [|eauto]. intros _. rewrite Hp in Hs. auto.
    + intros e w' [= <- _]. reflexivity.
  - destruct (Hok it) as (w1 & -> & _); [now right|]. split.
    + split; [intros (e & w' & H); discriminate|].
      intros (_ & Hp & Ht & _).
      unfold CommonPackageConfig.get_specfile_sync_files_item, rbind in Hit.
      rewrite Ht, Hp in Hit. discriminate.
    + intros e w' H. discriminate.
Qed.

Lemma get_all_files_to_sync_raises_iff_witness :
  exists e w',
    CommonPackageConfig.get_all_files_to_sync
      (built (sync_args None None (Some 0%nat) None) 2 0 fedora) legacy_world
    = (inl e, w').
Proof.
  destruct (get_all_files_to_sync_raises_iff
              (built (sync_args None None (Some 0%nat) None) 2 0 fedora) legacy_world)
    as [[_ H] _].
  apply H. repeat split.
Defined.

(** X7. The legacy inclusion is idempotent on a stored list: when
    [synced_files] is not empty and a call has returned, a second call
    returns the same list object and changes nothing, the two descriptors
    being among the sources by then. *)
Theorem get_all_files_to_sync_twice
  (self : CommonPackageConfig.t) (w w' : World) (l : loc) :
  CommonPackageConfig._files_to_sync_used self = false ->
  heap w !!! CommonPackageConfig.synced_files self <> [] ->
  CommonPackageConfig.get_all_files_to_sync self w = (ok l, w') ->
  CommonPackageConfig.get_all_files_to_sync self w' = (ok l, w').
Proof.
  intros Hused Hne Hrun.
  pose proof (files_to_sync_legacy_stored self w Hused Hne) as Hfts.
  pose proof (files_to_sync_legacy_valid self w _ w Hused Hfts) as Hlt.
  destruct (get_all_legacy_outcome self w _ w Hused Hfts) as [Herr Hok].
  assert (Hl : l = CommonPackageConfig.synced_files self
               /\ heap w' !!! CommonPackageConfig.synced_files self <> []
               /\ in_srcs (CommonPackageConfig.specfile_path self)
                    (heap w' !!! CommonPackageConfig.synced_files self) = true
               /\ (truthy (CommonPackageConfig.config_file_path self) = true ->
                   in_srcs (CommonPackageConfig.config_file_path self)
                     (heap w' !!! CommonPackageConfig.synced_files self) = true)).
  { assert (Hgrow : forall extra,
              heap w !!! CommonPackageConfig.synced_files self ++ extra <> [])
      by (intros extra; destruct (heap w !!! CommonPackageConfig.synced_files self);
          [congruence|discriminate]).
    destruct (in_srcs (CommonPackageConfig.specfile_path self)
                (heap w !!! CommonPackageConfig.synced_files self)) eqn:Hs.
    - destruct (Hok (mkSync [] None)) as (w1 & Hrun1 & Hheap & _); [now left|].
      rewrite Hrun1 in Hrun. injection Hrun as <- <-. split; [reflexivity|].
      rewrite Hheap, list_lookup_total_insert_eq by exact Hlt.
      split; [apply Hgrow|]. apply legacy_extra_includes. now left.
    - destruct (CommonPackageConfig.get_specfile_sync_files_item self false)
        as [e|it] eqn:Hit.
      + rewrite (Herr e eq_refl eq_refl) in Hrun. discriminate.
      + destruct (Hok it) as (w1 & Hrun1 & Hheap & _); [now right|].
        rewrite Hrun1 in Hrun. injection Hrun as <- <-. split; [reflexivity|].
        rewrite Hheap, list_lookup_total_insert_eq by exact Hlt.
        split; [apply Hgrow|]. apply legacy_extra_includes. right.
        now apply specfile_item_src. }
  destruct Hl as (-> & Hne' & Hspec & Hcfg).
  pose proof (files_to_sync_legacy_stored self w' Hused Hne') as Hfts'.
  pose proof (files_to_sync_legacy_valid self w' _ w' Hused Hfts') as Hlt'.
  destruct (get_all_legacy_outcome self w' _ w' Hused Hfts') as [_ Hok'].
  destruct (Hok' (mkSync [] None)) as (w2 & Hrun2 & Hheap2 & Hlog2 & Henv2);
    [now left|].
  rewrite Hrun2. f_equal. apply world_eq; [|assumption|assumption].
  rewrite Hheap2, legacy_extra_nothing, app_nil_r by assumption.
  apply list_insert_id. now apply list_lookup_lookup_total_lt.
Qed.

Lemma get_all_files_to_sync_twice_witness :
  CommonPackageConfig.get_all_files_to_sync legacy_config
    {| heap := [[readme_item; spec_item; packit_yaml_item]; []; []];
       log := log legacy_world; environ := ∅ |}
  = (ok 0%nat,
     {| heap := [[readme_item; spec_item; packit_yaml_item]; []; []];
        log := log legacy_world; environ := ∅ |}).
Proof.
  apply (get_all_files_to_sync_twice legacy_config legacy_world).
  - reflexivity.
  - discriminate.
  - reflexivity.
Defined.



(** Whatever the outcome, the legacy inclusion writes at most the list
    object that the read resolved to. *)
Lemma get_all_legacy_shape self w l0 w0 r w' :
  CommonPackageConfig._files_to_sync_used self = false ->
  CommonPackageConfig.files_to_sync self w = (ok l0, w0) ->
  CommonPackageConfig.get_all_files_to_sync self w = (r, w') ->
  log w' = log w0 /\ environ w' = environ w0
  /\ exists content, heap w' = <[l0 := content]> (heap w0).
Proof.
  intros Hused Hfts Hrun.
  pose proof (files_to_sync_legacy_valid self w l0 w0 Hused Hfts) as Hlt.
  destruct (get_all_legacy_outcome self w l0 w0 Hused Hfts) as [Herr Hok].
  assert (Hsame : heap w0 = <[l0 := heap w0 !!! l0]> (heap w0))
    by (symmetry; apply list_insert_id; now apply list_lookup_lookup_total_lt).
  destruct (in_srcs (CommonPackageConfig.specfile_path self) (heap w0 !!! l0)) eqn:Hs.
  - destruct (Hok (mkSync [] None)) as (w1 & Hrun1 & Hheap & Hlog & Henv); [now left|].
    rewrite Hrun1 in Hrun. injection Hrun as <- <-. eauto.
  - destruct (CommonPackageConfig.get_specfile_sync_files_item self false)
      as [e|it] eqn:Hit.
    + rewrite (Herr e eq_refl eq_refl) in Hrun. injection Hrun as <- <-. eauto.
    + destruct (Hok it) as (w1 & Hrun1 & Hheap & Hlog & Henv); [now right|].
      rewrite Hrun1 in Hrun. injection Hrun as <- <-. eauto.
Qed.

(** X9. What [get_all_files_to_sync] leaves alone, whether it returns or
    raises: the warnings and the environment; every list object that
    existed before the call, except the one the [synced_files] attribute
    refers to; and, when the new-style option was given, everything. *)
Theorem get_all_files_to_sync_frame
  (self : CommonPackageConfig.t) (w w' : World) (r : result loc) :
  CommonPackageConfig.get_all_files_to_sync self w = (r, w') ->
  log w' = log w /\ environ w' = environ w
  /\ (length (heap w) <= length (heap w'))%nat
  /\ (forall l', (l' < length (heap w))%nat ->
                 l' <> CommonPackageConfig.synced_files self ->
                 heap w' !!! l' = heap w !!! l')
  /\ (CommonPackageConfig._files_to_sync_used self = true -> w' = w).
Proof.
  intros Hrun.
  destruct (CommonPackageConfig._files_to_sync_used self) eqn:Hused.
  { unfold CommonPackageConfig.get_all_files_to_sync, bind in Hrun.
    rewrite files_to_sync_new_style in Hrun by exact Hused.
    rewrite Hused in Hrun. injection Hrun as <- <-. auto. }
  destruct (files_to_sync_total self w) as (l0 & w0 & Hfts).
  destruct (get_all_legacy_shape self w l0 w0 r w' Hused Hfts Hrun)
    as (Hlog & Henv & content & Hheap).
  destruct (files_to_sync_legacy_cases self w l0 w0 Hused Hfts)
    as [_ [(_ & -> & ->) | (_ & -> & Hh0 & Hl0 & He0)]].
  - split; [exact Hlog|]. split; [exact Henv|].
    split; [rewrite Hheap, length_insert; lia|].
    split; [|discriminate].
    intros l' _ Hne. rewrite Hheap. now apply list_lookup_total_insert_ne.
  - split; [congruence|]. split; [congruence|].
    split; [rewrite Hheap, length_insert, Hh0, length_app; lia|].
    split; [|discriminate].
    intros l' Hlt _. rewrite Hheap, list_lookup_total_insert_ne by lia.
    rewrite Hh0. now apply lookup_total_app_l.
Qed.

Lemma get_all_files_to_sync_frame_witness :
  heap {| heap := [[readme_item; spec_item; packit_yaml_item]; []; []];
          log := log legacy_world; environ := ∅ |} !!! 1%nat
  = heap legacy_world !!! 1%nat.
Proof.
  destruct (get_all_files_to_sync_frame legacy_config legacy_world
              {| heap := [[readme_item; spec_item; packit_yaml_item]; []; []];
                 log := log legacy_world; environ := ∅ |}
              (ok 0%nat) eq_refl)
    as (_ & _ & _ & Hother & _).
  apply (Hother 1%nat); [simpl; lia | discriminate].
Defined.

(** ** Construction, beyond the claims *)

Lemma or_new_list_cases o w :
  (exists l0, o = Some l0 /\ heap w !!! l0 <> [] /\ or_new_list o w = (ok l0, w))
  \/ (content w o = [] /\ or_new_list o w = alloc [] w).
Proof.
  destruct o as [l0|]; simpl; [|now right].
  unfold bind, deref. simpl.
  destruct (heap w !!! l0) eqn:Hc.
  - now right.
  - left. exists l0. rewrite Hc. repeat split. discriminate.
Qed.

Lemma warn_user_log b w :
  exists w', CommonPackageConfig._warn_user b w = (ok tt, w')
    /\ heap w' = heap w /\ environ w' = environ w
    /\ log w' = log w ++ [Logged CommonPackageConfig.deprecated_msg;
                          Deprecation CommonPackageConfig.deprecated_msg]
                      ++ (if b then [Logged CommonPackageConfig.both_msg] else []).
Proof.
  unfold CommonPackageConfig._warn_user, bind, emit. simpl.
  destruct b; eexists; (split; [reflexivity|]); simpl;
    repeat split; rewrite <- ?app_assoc; simpl; now rewrite ?app_nil_r.
Qed.

(** The list part of the constructor: its notices and its new objects. *)
Lemma init_lists_effects a w :
  exists files synced w1 ext,
    init_lists a w = (ok (files, synced), w1)
    /\ log w1 = log w ++ deprecation_notices a
    /\ environ w1 = environ w
    /\ heap w1 = heap w ++ ext
    /\ Forall (fun v => v = []) ext /\ (length ext <= 2)%nat.
Proof.
  unfold init_lists, bind.
  assert (Hstep : forall o w0, exists l w1 ext,
            or_new_list o w0 = (ok l, w1) /\ log w1 = log w0
            /\ environ w1 = environ w0 /\ heap w1 = heap w0 ++ ext
            /\ Forall (fun v => v = []) ext /\ (length ext <= 1)%nat).
  { intros o w0. destruct (or_new_list_cases o w0) as [(l0 & _ & _ & ->) | (_ & ->)].
    - exists l0, w0, []. rewrite app_nil_r. repeat split; auto.
    - eexists _, _, [[]]. unfold alloc. simpl. repeat split; auto. }
  destruct (Hstep (CommonPackageConfig.arg_files_to_sync a) w)
    as (f & wa & e1 & -> & Hla & Hea & Hha & Hf1 & Hn1).
  destruct (Hstep (CommonPackageConfig.arg_synced_files a) wa)
    as (s & wb & e2 & -> & Hlb & Heb & Hhb & Hf2 & Hn2).
  assert (Hext : heap wb = heap w ++ (e1 ++ e2)
                 /\ Forall (fun v => v = []) (e1 ++ e2)
                 /\ (length (e1 ++ e2) <= 2)%nat).
  { split; [rewrite Hhb, Hha; now rewrite app_assoc|].
    split; [now apply Forall_app|]. rewrite length_app. lia. }
  destruct Hext as (Hh & Hf & Hn).
  unfold deprecation_notices.
  destruct (CommonPackageConfig.arg_synced_files a) as [l1|]; simpl.
  - destruct (warn_user_log
                (bool_decide (CommonPackageConfig.arg_files_to_sync a ≠ None)) wb)
      as (wc & -> & Hhc & Hec & Hlc).
    exists f, s, wc, (e1 ++ e2). split; [reflexivity|].
    split.
    + rewrite Hlc, Hlb, Hla.
      destruct (CommonPackageConfig.arg_files_to_sync a); reflexivity.
    + repeat split; try assumption; congruence.
  - exists f, s, wb, (e1 ++ e2). split; [reflexivity|].
    rewrite app_nil_r. repeat split; try assumption; congruence.
Qed.

(** X10. A construction reports the deprecation exactly when
    [synced_files] is given, even as an empty list: one logged message
    and one [DeprecationWarning], followed by the remark on giving both
    options when [files_to_sync] is given too. The notices are emitted
    before the dist-git instance is resolved, so they are there also when
    the construction fails. Nothing else is emitted. *)
Theorem construction_notices
  (from_url_and_namespace : string -> option string -> DistGitInstance)
  (registry : gmap string DistGitInstance)
  (a : CommonPackageConfig.Args) (w w' : World)
  (r : result CommonPackageConfig.t) :
  CommonPackageConfig.__init__ from_url_and_namespace registry a w = (r, w') ->
  log w' = log w ++ deprecation_notices a.
Proof.
  intros Hinit. rewrite init_unfold in Hinit.
  destruct (init_lists_effects a w) as (f & s & w1 & ext & Hl & Hlog & _).
  rewrite Hl in Hinit.
  pose proof (resolve_world from_url_and_namespace registry
                (CommonPackageConfig.arg_dist_git_base_url a)
                (CommonPackageConfig.arg_dist_git_namespace a)
                (CommonPackageConfig.arg_pkg_tool a) w1) as Hw.
  destruct (DistGit._construct_dist_git_instance _ _ _ _ _ w1) as [[e|inst] w2];
    simpl in Hw; subst w2; injection Hinit as <- <-; exact Hlog.
Qed.

Lemma construction_notices_witness :
  log {| heap := [[readme_item]; []; []];
         log := [Logged CommonPackageConfig.deprecated_msg;
                 Deprecation CommonPackageConfig.deprecated_msg;
                 Logged CommonPackageConfig.both_msg];
         environ := ∅ |}
  = log caller_world
      ++ deprecation_notices (sync_args None None (Some 0%nat) (Some 1%nat)).
Proof.
  apply (construction_notices mkDistGit sample_registry
           (sync_args None None (Some 0%nat) (Some 1%nat)) caller_world _
           (ok (built (sync_args None None (Some 0%nat) (Some 1%nat)) 2 0 fedora))).
  reflexivity.
Defined.

(** X11. A construction, successful or not, leaves the environment and
    every existing list object as they are; the list objects it creates,
    two at most for the file-sync attributes, are empty. *)
Theorem construction_frame
  (from_url_and_namespace : string -> option string -> DistGitInstance)
  (registry : gmap string DistGitInstance)
  (a : CommonPackageConfig.Args) (w w' : World)
  (r : result CommonPackageConfig.t) :
  CommonPackageConfig.__init__ from_url_and_namespace registry a w = (r, w') ->
  environ w' = environ w
  /\ exists created,
       heap w' = heap w ++ created
       /\ Forall (fun v => v = []) created /\ (length created <= 2)%nat.
Proof.
  intros Hinit. rewrite init_unfold in Hinit.
  destruct (init_lists_effects a w) as (f & s & w1 & ext & Hl & _ & Henv & Hh & Hf & Hn).
  rewrite Hl in Hinit.
  pose proof (resolve_world from_url_and_namespace registry
                (CommonPackageConfig.arg_dist_git_base_url a)
                (CommonPackageConfig.arg_dist_git_namespace a)
                (CommonPackageConfig.arg_pkg_tool a) w1) as Hw.
  destruct (DistGit._construct_dist_git_instance _ _ _ _ _ w1) as [[e|inst] w2];
    simpl in Hw; subst w2; injection Hinit as <- <-; eauto.
Qed.

Lemma construction_frame_witness :
  environ legacy_world = environ caller_world
  /\ exists created,
       heap legacy_world = heap caller_world ++ created
       /\ Forall (fun v => v = []) created /\ (length created <= 2)%nat.
Proof.
  apply (construction_frame mkDistGit sample_registry legacy_args caller_world
           legacy_world (ok legacy_config)).
  reflexivity.
Defined.

(** An empty list given as [files_to_sync] is replaced by a new object. *)
Lemma init_lists_files_fresh a w l0 files synced w1 :
  CommonPackageConfig.arg_files_to_sync a = Some l0 ->
  heap w !!! l0 = [] ->
  init_lists a w = (ok (files, synced), w1) ->
  files = length (heap w).
Proof.
  intros Ha Hc. unfold init_lists, bind. rewrite Ha. simpl.
  unfold bind, deref. simpl. rewrite Hc. simpl.
  destruct (or_new_list_ok (CommonPackageConfig.arg_synced_files a)
              {| heap := heap w ++ [[]]; log := log w; environ := environ w |})
    as (s & wb & -> & _).
  destruct (bool_decide (CommonPackageConfig.arg_synced_files a ≠ None)).
  - match goal with
    | |- context [CommonPackageConfig._warn_user ?b wb] =>
        destruct (warn_user_ok b wb) as (wc & -> & _)
    end.
    unfold ret. intros [= <- _ _]. reflexivity.
  - unfold ret. intros [= <- _ _]. reflexivity.
Qed.

(** X12. A list given as [files_to_sync] is shared with the caller only
    when it is not empty at construction. If the caller appends to it
    afterwards, a configuration built on a non-empty list sees the new
    descriptor, while one built on an empty list keeps an empty list of
    its own ([files_to_sync or []] made a new object). *)
Theorem files_to_sync_shared_unless_empty
  (from_url_and_namespace : string -> option string -> DistGitInstance)
  (registry : gmap string DistGitInstance)
  (a : CommonPackageConfig.Args) (w w' : World) (self : CommonPackageConfig.t)
  (l0 : loc) (item : SyncFilesItem) :
  CommonPackageConfig.arg_files_to_sync a = Some l0 ->
  (l0 < length (heap w))%nat ->
  CommonPackageConfig.__init__ from_url_and_namespace registry a w = (ok self, w') ->
  exists l,
    CommonPackageConfig.files_to_sync self (snd (append l0 item w'))
      = (ok l, snd (append l0 item w'))
    /\ heap (snd (append l0 item w')) !!! l
       = match heap w !!! l0 with
         | [] => []
         | first :: others => (first :: others) ++ [item]
         end.
Proof.
  intros Ha Hlt Hinit.
  rewrite init_unfold in Hinit.
  destruct (init_lists_ok a w)
    as (f & s & w1 & Hl & _ & [ext Hh] & Hf & Hs & Hcf & _ & Hif & _).
  rewrite Hl in Hinit.
  pose proof (resolve_world from_url_and_namespace registry
                (CommonPackageConfig.arg_dist_git_base_url a)
                (CommonPackageConfig.arg_dist_git_namespace a)
                (CommonPackageConfig.arg_pkg_tool a) w1) as Hw.
  destruct (DistGit._construct_dist_git_instance _ _ _ _ _ w1) as [[e|inst] w2];
    [discriminate|].
  simpl in Hw. subst w2. injection Hinit as <- <-.
  assert (Hused : CommonPackageConfig._files_to_sync_used (built a f s inst) = true)
    by (unfold built; simpl; now rewrite Ha).
  exists f. split; [now apply files_to_sync_new_style|].
  assert (Hl0 : (l0 < length (heap w1))%nat) by (rewrite Hh, length_app; lia).
  assert (Hc1 : heap w1 !!! l0 = heap w !!! l0)
    by (rewrite Hh; now apply lookup_total_app_l).
  rewrite Ha in Hcf. specialize (Hcf Hlt). simpl in Hcf.
  unfold append. simpl.
  destruct (heap w !!! l0) as [|x xs] eqn:Hc.
  - rewrite (init_lists_files_fresh a w l0 f s w1 Ha Hc Hl) in *.
    rewrite list_lookup_total_insert_ne by lia. exact Hcf.
  - rewrite (Hif l0 Ha) by (rewrite Hc; discriminate).
    rewrite list_lookup_total_insert_eq by exact Hl0. now rewrite Hc1.
Qed.

Lemma files_to_sync_shared_unless_empty_witness :
  exists l,
    CommonPackageConfig.files_to_sync new_style_config
      {| heap := [[readme_item; spec_item]; []; []]; log := []; environ := ∅ |}
      = (ok l, {| heap := [[readme_item; spec_item]; []; []]; log := []; environ := ∅ |})
    /\ heap {| heap := [[readme_item; spec_item]; []; []]; log := []; environ := ∅ |}
         !!! l
       = [readme_item; spec_item].
Proof.
  apply (files_to_sync_shared_unless_empty mkDistGit sample_registry
           (sync_args (Some ".packit.yaml") (Some "pkg.spec") None (Some 0%nat))
           caller_world
           {| heap := [[readme_item]; []; []]; log := []; environ := ∅ |}
           new_style_config 0%nat spec_item).
  - reflexivity.
  - simpl. lia.
  - reflexivity.
Defined.



(** X14. Without a base URL the namespace is not read: neither the
    [dist_git_namespace] option nor, unless [DISTGIT_URL] is set, the
    [DISTGIT_NAMESPACE] variable changes the resolved instance. *)
Theorem namespace_needs_base_url
  (from_url_and_namespace : string -> option string -> DistGitInstance)
  (registry : gmap string DistGitInstance)
  (ns ns' tool : option string) (w : World) :
  DistGit._construct_dist_git_instance from_url_and_namespace registry None ns tool w
  = DistGit._construct_dist_git_instance from_url_and_namespace registry None ns' tool w
  /\ (environ w !! "DISTGIT_URL" = None ->
      forall v,
        fst (DistGit._construct_dist_git_instance from_url_and_namespace registry
               None ns tool
               {| heap := heap w; log := log w;
                  environ := <["DISTGIT_NAMESPACE" := v]> (environ w) |})
        = fst (DistGit._construct_dist_git_instance from_url_and_namespace registry
                 None ns tool w)).
Proof.
  destruct (truthy tool) eqn:Ht.
  - unfold DistGit._construct_dist_git_instance. rewrite Ht. split; reflexivity.
  - rewrite !resolve_environment by exact Ht. split; [reflexivity|].
    intros Hu v. rewrite resolve_environment by exact Ht. cbn [fst environ].
    rewrite lookup_insert_ne by discriminate. now rewrite Hu.
Qed.

Lemma namespace_needs_base_url_witness :
  fst (DistGit._construct_dist_git_instance mkDistGit sample_registry
         None (Some "forks") None
         {| heap := []; log := [];
            environ := <["DISTGIT_NAMESPACE" := "stg"]> ∅ |})
  = ok fedora.
Proof.
  destruct (namespace_needs_base_url mkDistGit sample_registry
              (Some "forks") None None empty_world) as [_ H].
  exact (H eq_refl "stg").
Defined.

(** ** The dist-git URLs, beyond the claims *)

Lemma append_inj_l (s a b : string) : s +:+ a = s +:+ b -> a = b.
Proof. induction s as [|c r IH]; simpl; [auto|]. intros [= H]. auto. Qed.

Lemma append_inj_r (t : string) : forall a b : string, a +:+ t = b +:+ t -> a = b.
Proof.
  assert (Hlen : forall x y : string,
            String.length (x +:+ y) = (String.length x + String.length y)%nat)
    by (intros x y; induction x; simpl; auto).
  induction a as [|c a IH]; intros [|d b] H; simpl in H.
  - reflexivity.
  - apply (f_equal String.length) in H. simpl in H. rewrite !Hlen in H.
    simpl in H. lia.
  - apply (f_equal String.length) in H. simpl in H. rewrite !Hlen in H.
    simpl in H. lia.
  - injection H as -> H. f_equal. now apply IH.
Qed.

(** X15. Two packages of one dist-git instance never share a URL: with
    the same resolved instance, different non-empty downstream names give
    different values of [dist_git_package_url]. *)
Theorem dist_git_package_url_injective
  (self : CommonPackageConfig.t) (name1 name2 : string) :
  name1 <> "" -> name2 <> "" -> name1 <> name2 ->
  CommonPackageConfig.dist_git_package_url
    (CommonPackageConfig.set_downstream_package_name (Some name1) self)
  <> CommonPackageConfig.dist_git_package_url
       (CommonPackageConfig.set_downstream_package_name (Some name2) self).
Proof.
  intros H1 H2 Hdiff. unfold CommonPackageConfig.dist_git_package_url.
  cbn [CommonPackageConfig.set_downstream_package_name
       CommonPackageConfig.downstream_package_name
       CommonPackageConfig.dist_git_base_url CommonPackageConfig.dist_git_namespace
       CommonPackageConfig.dist_git_instance].
  rewrite !truthy_nonempty by assumption. intros [= H]. apply Hdiff.
  repeat apply append_inj_l in H. simpl in H.
  now apply append_inj_r in H.
Qed.

Lemma dist_git_package_url_injective_witness :
  CommonPackageConfig.dist_git_package_url
    (CommonPackageConfig.set_downstream_package_name (Some "foo") up_config)
  <> CommonPackageConfig.dist_git_package_url
       (CommonPackageConfig.set_downstream_package_name (Some "foo.git") up_config).
Proof.
  apply (dist_git_package_url_injective up_config "foo" "foo.git"); discriminate.
Defined.

Lemma set_cache_same self :
  CommonPackageConfig.set_downstream_project_url
    (CommonPackageConfig._downstream_project_url self) self = self.
Proof. now destruct self. Qed.

(** X16. A read of [downstream_project_url] assigns nothing but the cache
    attribute, and a second read right after it returns the same value
    and leaves the object as the first read left it. *)
Theorem downstream_project_url_read_twice (self : CommonPackageConfig.t) :
  let first := CommonPackageConfig.downstream_project_url self in
  snd first
    = CommonPackageConfig.set_downstream_project_url
        (CommonPackageConfig._downstream_project_url (snd first)) self
  /\ CommonPackageConfig._downstream_project_url (snd first) = fst first
  /\ CommonPackageConfig.downstream_project_url (snd first) = first.
Proof.
  unfold CommonPackageConfig.downstream_project_url.
  destruct (truthy (CommonPackageConfig._downstream_project_url self)) eqn:Ht; simpl.
  - rewrite Ht. simpl. split; [now rewrite set_cache_same|]. now split.
  - split; [reflexivity|]. split; [reflexivity|].
    destruct (CommonPackageConfig.dist_git_package_url self) as [u|] eqn:Hu.
    + rewrite (dist_git_package_url_truthy self u Hu). reflexivity.
    + simpl. unfold CommonPackageConfig.dist_git_package_url in *. simpl.
      destruct (truthy (CommonPackageConfig.downstream_package_name self));
        [discriminate|]. reflexivity.
Qed.

(** X17. A non-empty [downstream_project_url] given to the constructor
    is what every read returns, whatever is assigned to the downstream
    name or to the instance in between; an empty one counts as not given,
    the first read computing [dist_git_package_url]. *)
Theorem explicit_downstream_project_url
  (from_url_and_namespace : string -> option string -> DistGitInstance)
  (registry : gmap string DistGitInstance)
  (a : CommonPackageConfig.Args) (w w' : World) (self : CommonPackageConfig.t) :
  CommonPackageConfig.__init__ from_url_and_namespace registry a w = (ok self, w') ->
  (forall u, CommonPackageConfig.arg_downstream_project_url a = Some u -> u <> "" ->
     forall ops, Forall (fun v => v = Some u) (fst (run ops self)))
  /\ (CommonPackageConfig.arg_downstream_project_url a = Some "" ->
      fst (CommonPackageConfig.downstream_project_url self)
      = CommonPackageConfig.dist_git_package_url self).
Proof.
  intros Hinit. rewrite init_unfold in Hinit.
  destruct (init_lists_ok a w) as (f & s & w1 & Hl & _).
  rewrite Hl in Hinit.
  destruct (DistGit._construct_dist_git_instance _ _ _ _ _ w1) as [[e|inst] w2];
    [discriminate|].
  injection Hinit as <- _. split.
  - intros u Hu Hne ops. apply Forall_forall. intros v Hv.
    apply (run_cached ops (built a f s inst) u v); [exact Hu | | exact Hv].
    now apply truthy_nonempty.
  - intros Hu. unfold CommonPackageConfig.downstream_project_url.
    cbn [built CommonPackageConfig._downstream_project_url]. rewrite Hu. reflexivity.
Qed.

Lemma explicit_downstream_project_url_witness :
  Forall (fun v => v = Some "https://example/pkg")
    (fst (run [Read; SetName (Some "other"); Read]
            (named_config fedora (Some "foo") (Some "https://example/pkg")))).
Proof.
  destruct (explicit_downstream_project_url mkDistGit sample_registry
              {| CommonPackageConfig.arg_config_file_path := None;
                 CommonPackageConfig.arg_specfile_path := None;
                 CommonPackageConfig.arg_synced_files := None;
                 CommonPackageConfig.arg_files_to_sync := None;
                 CommonPackageConfig.arg_dist_git_namespace := None;
                 CommonPackageConfig.arg_upstream_package_name := None;
                 CommonPackageConfig.arg_downstream_project_url := Some "https://example/pkg";
                 CommonPackageConfig.arg_downstream_package_name := Some "foo";
                 CommonPackageConfig.arg_dist_git_base_url := None;
                 CommonPackageConfig.arg_spec_source_id := "Source0";
                 CommonPackageConfig.arg_pkg_tool := None |}
              empty_world
              {| heap := [[]; []]; log := []; environ := ∅ |}
              (named_config fedora (Some "foo") (Some "https://example/pkg"))
              eq_refl) as [H _].
  apply (H "https://example/pkg"); [reflexivity | discriminate].
Defined.

(** ** The facade, beyond the claims *)

Section FacadeMore.

Context {P V : Type}.
Variable getattr : P -> string -> result (MultiplePackages.value P V).
Variable setattr : P -> string -> MultiplePackages.value P V -> result P.

Local Abbreviation obj := (gmap string (MultiplePackages.value P V)).

(** An attribute of the collection itself is assigned on the collection. *)
Lemma facade_setattr_own (self : obj) name v :
  is_Some (self !! name) ->
  MultiplePackages.__setattr__ setattr self name v = ok (<[name := v]> self).
Proof.
  intros H. unfold MultiplePackages.__setattr__, MultiplePackages.in_dict.
  now rewrite bool_decide_eq_true_2 by exact H.
Qed.

(** The two functions on a collection whose attributes are known. *)
Lemma facade_getattr_forward (self : obj) name d first :
  self !! name = None ->
  self !! "packages" = Some (MultiplePackages.Packages d) ->
  self !! "_first_package" = Some first ->
  MultiplePackages.__getattr__ getattr self name
  = if (length d =? 1)%nat
    then rbind (MultiplePackages.getitem (MultiplePackages.Packages d) first)
           (fun package => getattr package name)
    else raise (MultiplePackages.ambiguous "get" name).
Proof.
  intros Hn Hp Hf.
  unfold MultiplePackages.__getattr__, MultiplePackages.__getattribute__.
  rewrite Hn, Hp, Hf. simpl. reflexivity.
Qed.

Lemma facade_setattr_forward (self : obj) name v d first :
  self !! name = None ->
  self !! "packages" = Some (MultiplePackages.Packages d) ->
  self !! "_first_package" = Some first ->
  MultiplePackages.__setattr__ setattr self name v
  = if (length d =? 1)%nat
    then rbind (MultiplePackages.getitem (MultiplePackages.Packages d) first)
           (fun package =>
              rbind (setattr package name v)
                (fun package' =>
                   ok (<["packages" :=
                           MultiplePackages.mutated (MultiplePackages.Packages d)
                             first package']> self)))
    else raise (MultiplePackages.ambiguous "set" name).
Proof.
  intros Hn Hp Hf.
  unfold MultiplePackages.__setattr__, MultiplePackages.__getattribute__,
    MultiplePackages.in_dict.
  rewrite Hn, Hp, Hf.
  rewrite bool_decide_eq_false_2 by (intros [? ?]; discriminate).
  rewrite bool_decide_eq_true_2 by eauto. simpl. reflexivity.
Qed.

End FacadeMore.

(** X18. The key of the single package is remembered at construction and
    never refreshed. After the dict of packages is replaced by a dict of
    one package under another key (an assignment that the collection
    takes for itself, [packages] being its own attribute), reads and
    writes of a package attribute raise [KeyError] on the remembered key,
    while [get_package_names_as_env], which iterates over the dict,
    reports the new key. *)
Theorem facade_first_package_is_not_refreshed {V : Type}
  (getattr : CommonPackageConfig.t -> string
             -> result (MultiplePackages.value CommonPackageConfig.t V))
  (setattr : CommonPackageConfig.t -> string
             -> MultiplePackages.value CommonPackageConfig.t V
             -> result CommonPackageConfig.t)
  (k k' name : string) (p p' : CommonPackageConfig.t)
  (self : gmap string (MultiplePackages.value CommonPackageConfig.t V))
  (v : MultiplePackages.value CommonPackageConfig.t V) :
  MultiplePackages.__init__ [(k, p)] = ok self ->
  k <> k' ->
  name <> "packages" -> name <> "_first_package" ->
  exists self',
    MultiplePackages.__setattr__ setattr self "packages"
      (MultiplePackages.Packages [(k', p')]) = ok self'
    /\ MultiplePackages.__getattr__ getattr self' name = raise (KeyError k)
    /\ MultiplePackages.__setattr__ setattr self' name v = raise (KeyError k)
    /\ exists env,
         MultiplePackages.get_package_names_as_env self' = ok env
         /\ env !! "PACKIT_CONFIG_PACKAGE_NAME" = Some k'.
Proof.
  intros Hinit Hk Hn1 Hn2.
  unfold MultiplePackages.__init__, MultiplePackages.super_setattr in Hinit.
  simpl in Hinit. injection Hinit as <-.
  set (self := <["_first_package" := MultiplePackages.Str k]>
                 (<["packages" := MultiplePackages.Packages [(k, p)]]> ∅)).
  exists (<["packages" := MultiplePackages.Packages [(k', p')]]> self).
  assert (Hp : (<["packages" := MultiplePackages.Packages [(k', p')]]> self)
               !! "packages" = Some (MultiplePackages.Packages [(k', p')]))
    by apply lookup_insert_eq.
  assert (Hf : (<["packages" := MultiplePackages.Packages [(k', p')]]> self)
               !! "_first_package" = Some (MultiplePackages.Str k)).
  { rewrite lookup_insert_ne by discriminate. apply lookup_insert_eq. }
  assert (Hn : (<["packages" := MultiplePackages.Packages [(k', p')]]> self)
               !! name = None).
  { subst self. rewrite !lookup_insert_ne by congruence. apply lookup_empty. }
  assert (Hget : String.eqb k' k = false)
    by (destruct (String.eqb_spec k' k); congruence).
  split.
  { apply facade_setattr_own. subst self.
    rewrite lookup_insert_ne by discriminate. rewrite lookup_insert_eq. eauto. }
  split.
  { rewrite (facade_getattr_forward getattr _ name _ _ Hn Hp Hf).
    simpl. now rewrite Hget. }
  split.
  { rewrite (facade_setattr_forward setattr _ name v _ _ Hn Hp Hf).
    simpl. now rewrite Hget. }
  unfold MultiplePackages.get_package_names_as_env, MultiplePackages.__getattribute__.
  rewrite Hp. simpl. eexists. split; [reflexivity|].
  rewrite !lookup_insert_ne by discriminate. apply lookup_insert_eq.
Qed.

Lemma facade_first_package_is_not_refreshed_witness :
  exists self',
    MultiplePackages.__setattr__ name_setattr config_collection "packages"
      (MultiplePackages.Packages [("renamed", up_config)]) = ok self'
    /\ MultiplePackages.__getattr__ name_getattr self' "upstream_package_name"
       = raise (KeyError "pkg")
    /\ MultiplePackages.__setattr__ name_setattr self' "upstream_package_name"
         (MultiplePackages.Str "up2") = raise (KeyError "pkg")
    /\ exists env,
         MultiplePackages.get_package_names_as_env self' = ok env
         /\ env !! "PACKIT_CONFIG_PACKAGE_NAME" = Some "renamed".
Proof.
  apply (facade_first_package_is_not_refreshed name_getattr name_setattr
           "pkg" "renamed" "upstream_package_name" up_config up_config
           config_collection (MultiplePackages.Str "up2"));
    [reflexivity | discriminate | discriminate | discriminate].
Defined.

(** X19. A collection needs a package to be built: the constructor raises
    [StopIteration] on an empty dict. And a collection whose dict has
    been emptied afterwards answers every read and write of a package
    attribute with the error for several packages. *)
Theorem facade_without_packages {P V : Type}
  (getattr : P -> string -> result (MultiplePackages.value P V))
  (setattr : P -> string -> MultiplePackages.value P V -> result P)
  (d : list (string * P)) (self : gmap string (MultiplePackages.value P V))
  (name : string) (v : MultiplePackages.value P V) :
  MultiplePackages.__init__ ([] : list (string * P))
    = (raise StopIteration : result (gmap string (MultiplePackages.value P V)))
  /\ (MultiplePackages.__init__ d = ok self ->
      name <> "packages" -> name <> "_first_package" ->
      exists self',
        MultiplePackages.__setattr__ setattr self "packages"
          (MultiplePackages.Packages []) = ok self'
        /\ MultiplePackages.__getattr__ getattr self' name
           = raise (AttributeError
                      ("It is ambiguous to get " +:+ name
                       +:+ ": there is more than one package in the config."))
        /\ MultiplePackages.__setattr__ setattr self' name v
           = raise (AttributeError
                      ("It is ambiguous to set " +:+ name
                       +:+ ": there is more than one package in the config."))).
Proof.
  split; [reflexivity|].
  intros Hinit Hn1 Hn2.
  destruct (facade_init d self Hinit) as (Hp0 & k & p & rest & -> & Hf0).
  assert (Hname : self !! name = None).
  { unfold MultiplePackages.__init__, MultiplePackages.super_setattr in Hinit.
    simpl in Hinit. injection Hinit as <-.
    rewrite !lookup_insert_ne by congruence. apply lookup_empty. }
  exists (<["packages" := MultiplePackages.Packages []]> self).
  split; [apply facade_setattr_own; eauto|].
  assert (Hn : (<["packages" := MultiplePackages.Packages []]> self) !! name = None)
    by (now rewrite lookup_insert_ne by congruence).
  assert (Hf : (<["packages" := MultiplePackages.Packages []]> self) !! "_first_package"
               = Some (MultiplePackages.Str k))
    by (now rewrite lookup_insert_ne by discriminate).
  split.
  - rewrite (facade_getattr_forward getattr _ name [] (MultiplePackages.Str k));
      [reflexivity | exact Hn | apply lookup_insert_eq | exact Hf].
  - rewrite (facade_setattr_forward setattr _ name v [] (MultiplePackages.Str k));
      [reflexivity | exact Hn | apply lookup_insert_eq | exact Hf].
Qed.

Lemma facade_without_packages_witness :
  exists self',
    MultiplePackages.__setattr__ plain_setattr one_package "packages"
      (MultiplePackages.Packages []) = ok self'
    /\ MultiplePackages.__getattr__ plain_getattr self' "timeout"
       = raise (AttributeError
                  "It is ambiguous to get timeout: there is more than one package in the config.")
    /\ MultiplePackages.__setattr__ plain_setattr self' "timeout"
         (MultiplePackages.Other 1%Z)
       = raise (AttributeError
                  "It is ambiguous to set timeout: there is more than one package in the config.").
Proof.
  destruct (facade_without_packages plain_getattr plain_setattr
              [("pkg", timeout_package)] one_package "timeout"
              (MultiplePackages.Other 1%Z)) as [_ H].
  apply H; [reflexivity | discriminate | discriminate].
Defined.

(** X20. Writing through the facade and reading back: when assigning an
    attribute on a package makes a later read of that attribute return
    the assigned value, the same holds through a collection of one
    package. The assignment does not create the attribute on the
    collection, and changes none of its attributes but the dict of
    packages, which keeps its single key. *)
Theorem facade_write_then_read {P V : Type}
  (getattr : P -> string -> result (MultiplePackages.value P V))
  (setattr : P -> string -> MultiplePackages.value P V -> result P)
  (k : string) (p : P) (self0 self self' : gmap string (MultiplePackages.value P V))
  (name : string) (v : MultiplePackages.value P V) :
  (forall q n x q', setattr q n x = ok q' -> getattr q' n = ok x) ->
  MultiplePackages.__init__ [(k, p)] = ok self0 ->
  self0 ⊆ self ->
  self !! name = None ->
  MultiplePackages.__setattr__ setattr self name v = ok self' ->
  MultiplePackages.__getattr__ getattr self' name = ok v
  /\ self' !! name = None
  /\ (forall n, n <> "packages" -> self' !! n = self !! n)
  /\ exists p', self' !! "packages" = Some (MultiplePackages.Packages [(k, p')]).
Proof.
  intros Hlaw Hinit Hsub Hname Hset.
  destruct (facade_init [(k, p)] self0 Hinit) as (Hp0 & k0 & p0 & rest & Hd & Hf0).
  injection Hd as <- <- <-.
  assert (Hp : self !! "packages" = Some (MultiplePackages.Packages [(k, p)]))
    by (eapply lookup_weaken; eauto).
  assert (Hf : self !! "_first_package" = Some (MultiplePackages.Str k))
    by (eapply lookup_weaken; eauto).
  assert (Hnp : name <> "packages") by congruence.
  rewrite (facade_setattr_forward setattr self name v _ _ Hname Hp Hf) in Hset.
  simpl in Hset. rewrite String.eqb_refl in Hset. simpl in Hset.
  destruct (setattr p name v) as [e|p'] eqn:Hs; [discriminate|].
  simpl in Hset. injection Hset as <-.
  assert (Hn' : (<["packages" := MultiplePackages.Packages [(k, p')]]> self) !! name
                = None) by (now rewrite lookup_insert_ne by congruence).
  split.
  - rewrite (facade_getattr_forward getattr _ name [(k, p')] (MultiplePackages.Str k));
      [| exact Hn' | apply lookup_insert_eq
       | now rewrite lookup_insert_ne by discriminate].
    simpl. rewrite String.eqb_refl. simpl. now apply (Hlaw p name v p').
  - split; [exact Hn'|]. split.
    + intros n Hn. now rewrite lookup_insert_ne by congruence.
    + exists p'. apply lookup_insert_eq.
Qed.

Lemma plain_set_then_get (q : gmap string Z) n x q' :
  plain_setattr q n x = ok q' -> plain_getattr q' n = ok x.
Proof.
  unfold plain_setattr, plain_getattr. destruct x as [d|s|z]; try discriminate.
  intros [= <-]. now rewrite lookup_insert_eq.
Qed.

Lemma facade_write_then_read_witness :
  MultiplePackages.__getattr__ plain_getattr
    (<["packages" := MultiplePackages.Packages
                       [("pkg", <["timeout" := 60%Z]> timeout_package)]]> one_package)
    "timeout"
  = ok (MultiplePackages.Other 60%Z).
Proof.
  destruct (facade_write_then_read plain_getattr plain_setattr "pkg" timeout_package
              one_package one_package
              (<["packages" := MultiplePackages.Packages
                                 [("pkg", <["timeout" := 60%Z]> timeout_package)]]>
                 one_package)
              "timeout" (MultiplePackages.Other 60%Z)
              plain_set_then_get eq_refl (reflexivity _) eq_refl eq_refl) as [H _].
  exact H.
Defined.

(** ** The targets *)

Lemma dict_of_names_lookup {O : Type} (names : list string) :
  forall (acc : gmap string (gmap string O)) (k : string),
    foldl (fun d key => <[key := ∅]> d) acc names !! k
    = if decide (k ∈ names) then Some ∅ else acc !! k.
Proof.
  induction names as [|n rest IH]; intros acc k; simpl.
  - destruct (decide (k ∈ [])) as [H|_]; [|reflexivity].
    apply elem_of_nil in H. contradiction.
  - rewrite IH.
    destruct (decide (k ∈ rest)) as [Hr|Hr].
    + rewrite decide_True by (apply elem_of_cons; now right). reflexivity.
    + destruct (decide (k = n)) as [->|Hne].
      * rewrite decide_True by (apply elem_of_cons; now left).
        apply lookup_insert_eq.
      * rewrite decide_False by (rewrite elem_of_cons; tauto).
        now apply lookup_insert_ne.
Qed.

(** X21. Targets given as a list of names are stored as the mapping from
    each listed name to empty options: the order of the list and its
    repetitions leave no trace, the [targets] view is the set of the
    listed names, and the result is what the equivalent mapping, given
    directly, is stored as. *)
Theorem targets_from_names {O : Type} (names : list string) :
  let stored : gmap string (gmap string O) :=
    Targets.init_targets (Some (Targets.Names names)) in
  (forall k, stored !! k = if decide (k ∈ names) then Some ∅ else None)
  /\ Targets.targets (Targets.targets_dict stored) = list_to_set names
  /\ (forall d : gmap string (gmap string O),
        (forall k, d !! k = if decide (k ∈ names) then Some ∅ else None) ->
        Targets.init_targets (Some (Targets.Mapping d)) = stored).
Proof.
  intros stored.
  assert (Hl : forall k, stored !! k = if decide (k ∈ names) then Some ∅ else None).
  { intros k. subst stored. unfold Targets.init_targets, Targets.dict_of_names.
    rewrite dict_of_names_lookup. now rewrite lookup_empty. }
  split; [exact Hl|]. split.
  - unfold Targets.targets, Targets.targets_dict. apply set_eq. intros k.
    rewrite elem_of_dom, Hl, elem_of_list_to_set.
    destruct (decide (k ∈ names)) as [H|H]; split; intros H'; try tauto; eauto.
    destruct H' as [? H']. discriminate.
  - intros d Hd. unfold Targets.init_targets, Targets.or_empty_dict.
    apply map_eq. intros k. rewrite Hl.
    destruct (decide (d = ∅)) as [->|_]; [|apply Hd].
    rewrite <- Hd. reflexivity.
Qed.

Lemma targets_from_names_witness :
  Targets.init_targets (O := Z)
    (Some (Targets.Mapping
             (<["fedora-rawhide" := ∅]> {["fedora-stable" := ∅]})))
  = Targets.init_targets
      (Some (Targets.Names ["fedora-stable"; "fedora-rawhide"; "fedora-stable"])).
Proof.
  destruct (targets_from_names (O := Z)
              ["fedora-stable"; "fedora-rawhide"; "fedora-stable"]) as (_ & _ & H).
  apply H. intros k.
  destruct (decide (k = "fedora-rawhide")) as [->|H1]; [reflexivity|].
  rewrite lookup_insert_ne by congruence.
  destruct (decide (k = "fedora-stable")) as [->|H2]; [reflexivity|].
  rewrite lookup_singleton_ne by congruence.
  rewrite decide_False; [reflexivity|].
  rewrite !elem_of_cons, elem_of_nil. tauto.
Defined.
